(** * Installer front end (desktop-app/src/App.tsx): environment check,
      system status, installation start, progress polling and step display.

    The React component [App] is embedded as a record of its state variables
    ([useState] cells) together with the host calls that are outstanding, the
    interval timers that are armed and the log of [invoke] calls issued.  Each
    event handler and each continuation of an [await] is a function on that
    world; the order in which clicks, timer ticks and host answers arrive is
    chosen by the environment, one event at a time (the JavaScript event
    loop). *)

From Stdlib Require Import String List Bool ZArith QArith Lia Arith.
Import ListNotations.
Local Open Scope string_scope.

(** ** Data model (the three interfaces of App.tsx) *)

Record SystemInfo := mkSystemInfo {
  os : string;
  os_version : string;
  cpu_name : string;
  cpu_cores : Z;
  total_memory : Z;
  available_memory : Z;
  total_disk_space : Z;
  available_disk_space : Z;
  gpu_info : list string;
  python_version : option string;   (* python_version?: string *)
  git_version : option string;      (* git_version?: string *)
  cuda_available : bool
}.

(** [progress] is a JavaScript number; every finite one is a rational. *)
Record InstallProgress := mkInstallProgress {
  step : string;
  progress : Q;
  message : string;
  is_complete : bool;
  has_error : bool
}.

Record InstallConfig := mkInstallConfig {
  install_path : string;
  model_type : string;
  use_gpu : bool
}.

(** The object returned by [getSystemStatus]. *)
Record SystemStatus := mkSystemStatus {
  status : string;
  status_message : string
}.

(** ** JavaScript helpers *)

(** Truthiness of an optional string: [undefined], [null] and the empty
    string are falsy. *)
Definition truthy (v : option string) : bool :=
  match v with
  | None => false
  | Some s => negb (s =? "")
  end.

(** [Array.prototype.join]. *)
Definition join (sep : string) (l : list string) : string := String.concat sep l.

(** [Array.prototype.push] of one element. *)
Definition push {A} (l : list A) (x : A) : list A := l ++ [x].

(** ** getSystemStatus *)

Definition issues (systemInfo : SystemInfo) : list string :=
  let issues := [] in
  let issues :=
    if (total_memory systemInfo <? 8 * 1024 * 1024 * 1024)%Z
    then push issues "内存不足8GB，可能影响性能" else issues in
  let issues :=
    if (available_disk_space systemInfo <? 10 * 1024 * 1024 * 1024)%Z
    then push issues "可用磁盘空间不足10GB" else issues in
  let issues :=
    if negb (truthy (python_version systemInfo))
    then push issues "未检测到Python" else issues in
  let issues :=
    if negb (truthy (git_version systemInfo))
    then push issues "未检测到Git" else issues in
  issues.

Definition getSystemStatus (systemInfo : option SystemInfo) : SystemStatus :=
  match systemInfo with
  | None => mkSystemStatus "unknown" "系统信息未知"
  | Some info =>
      let issues := issues info in
      if (length issues =? 0)%nat then
        mkSystemStatus "good" "系统环境良好，可以开始安装"
      else if (length issues <=? 2)%nat then
        mkSystemStatus "warning" ("检测到问题: " ++ join ", " issues)
      else
        mkSystemStatus "error" ("系统环境不满足要求: " ++ join ", " issues)
  end.

(** [const systemStatus = systemInfo ? getSystemStatus() : {...}] *)
Definition systemStatus (systemInfo : option SystemInfo) : SystemStatus :=
  match systemInfo with
  | Some _ => getSystemStatus systemInfo
  | None => mkSystemStatus "unknown" ""
  end.

(** ** Component state *)

Record AppState := mkAppState {
  systemInfo : option SystemInfo;
  loading : bool;
  installing : bool;
  isWebEnvironment : bool;
  installProgress : InstallProgress;
  error : option string;
  installConfig : InstallConfig
}.

(** The object literal that initialises [installProgress], written a second
    time in the handler of the restart button. *)
Definition idle_progress : InstallProgress :=
  mkInstallProgress "idle" 0 "" false false.

Definition initial_state : AppState :=
  mkAppState None true false false idle_progress None
    (mkInstallConfig "/Users/Shared/IndexTTS" "base" false).

(** State setters ([setX(v)] of [useState]). *)
Definition setSystemInfo (v : option SystemInfo) (a : AppState) : AppState :=
  mkAppState v (loading a) (installing a) (isWebEnvironment a)
    (installProgress a) (error a) (installConfig a).
Definition setLoading (v : bool) (a : AppState) : AppState :=
  mkAppState (systemInfo a) v (installing a) (isWebEnvironment a)
    (installProgress a) (error a) (installConfig a).
Definition setInstalling (v : bool) (a : AppState) : AppState :=
  mkAppState (systemInfo a) (loading a) v (isWebEnvironment a)
    (installProgress a) (error a) (installConfig a).
Definition setIsWebEnvironment (v : bool) (a : AppState) : AppState :=
  mkAppState (systemInfo a) (loading a) (installing a) v
    (installProgress a) (error a) (installConfig a).
Definition setInstallProgress (v : InstallProgress) (a : AppState) : AppState :=
  mkAppState (systemInfo a) (loading a) (installing a) (isWebEnvironment a)
    v (error a) (installConfig a).
Definition setError (v : option string) (a : AppState) : AppState :=
  mkAppState (systemInfo a) (loading a) (installing a) (isWebEnvironment a)
    (installProgress a) v (installConfig a).
Definition setInstallConfig (v : InstallConfig) (a : AppState) : AppState :=
  mkAppState (systemInfo a) (loading a) (installing a) (isWebEnvironment a)
    (installProgress a) (error a) v.

(** ** Host interface *)

(** The commands passed to [invoke], with their arguments. *)
Inductive Command :=
| get_default_install_path
| get_system_info
| start_installation (config : InstallConfig)
| get_installation_progress
| launch_indextts (path : string)
| open_install_directory (path : string).

(** What runs when an outstanding [invoke] settles: the rest of the async
    function after its [await].  [KPoll t] is the timer callback that
    captured [progressInterval = t]. *)
Inductive Pending :=
| KProbe
| KDefaultPath
| KSysInfo
| KStart
| KPoll (t : nat)
| KLaunch
| KOpen.

Definition Pending_eq_dec (x y : Pending) : {x = y} + {x <> y}.
Proof. decide equality. apply Nat.eq_dec. Defined.

Record World := mkWorld {
  app : AppState;
  timers : list nat;          (* interval ids that are armed *)
  next_timer : nat;           (* the id the next setInterval returns *)
  pending : list Pending;     (* outstanding host calls *)
  calls : list Command;       (* invoke calls issued, latest first *)
  alerts : list string        (* window.alert texts, latest first *)
}.

Definition with_app (f : AppState -> AppState) (w : World) : World :=
  mkWorld (f (app w)) (timers w) (next_timer w) (pending w) (calls w) (alerts w).

(** [invoke(c)] followed by [await]: the call is logged and its continuation
    waits for the host. *)
Definition invoke (c : Command) (k : Pending) (w : World) : World :=
  mkWorld (app w) (timers w) (next_timer w) (push (pending w) k)
    (c :: calls w) (alerts w).

Definition alert (msg : string) (w : World) : World :=
  mkWorld (app w) (timers w) (next_timer w) (pending w) (calls w)
    (msg :: alerts w).

(** [setInterval(callback, 1000)]: arms a timer under a fresh id. *)
Definition setInterval (w : World) : World :=
  mkWorld (app w) (next_timer w :: timers w) (S (next_timer w)) (pending w)
    (calls w) (alerts w).

Definition clearInterval (t : nat) (w : World) : World :=
  mkWorld (app w) (remove Nat.eq_dec t (timers w)) (next_timer w) (pending w)
    (calls w) (alerts w).

(** Removes the first occurrence of a continuation: the call has settled. *)
Fixpoint settle (k : Pending) (l : list Pending) : option (list Pending) :=
  match l with
  | [] => None
  | x :: l' =>
      if Pending_eq_dec k x then Some l'
      else match settle k l' with
           | Some r => Some (x :: r)
           | None => None
           end
  end.

Definition with_pending (p : list Pending) (w : World) : World :=
  mkWorld (app w) (timers w) (next_timer w) p (calls w) (alerts w).

(** ** Handlers and continuations, in the order of the source

    A rejected [invoke] carries a value that the template literals turn into
    text; [err] below is that text. *)

(** [checkSystemInfo], up to its [await]. *)
Definition checkSystemInfo (w : World) : World :=
  invoke get_system_info KSysInfo
    (with_app (fun a => setError None (setLoading true a)) w).

(** [checkSystemInfo] after the [await]: success, then [finally]. *)
Definition sysinfo_resolved (info : SystemInfo) (w : World) : World :=
  with_app (fun a => setLoading false (setSystemInfo (Some info) a)) w.

(** [checkSystemInfo] after the [await]: [catch], then [finally]. *)
Definition sysinfo_rejected (err : string) (w : World) : World :=
  with_app (fun a =>
    setLoading false (setError (Some ("系统检测失败: " ++ err)) a)) w.

(** The effect hook: [checkEnvironment], up to its [await]. *)
Definition checkEnvironment (w : World) : World :=
  invoke get_default_install_path KProbe w.

Definition setDefaultPath (w : World) : World :=
  invoke get_default_install_path KDefaultPath w.

Definition probe_resolved (w : World) : World :=
  let w := with_app (setIsWebEnvironment false) w in
  let w := checkSystemInfo w in
  setDefaultPath w.

Definition probe_rejected (w : World) : World :=
  with_app (fun a =>
    setLoading false
      (setError (Some "此安装器仅支持桌面应用环境，不支持Web浏览器运行。请下载桌面版本。")
         (setIsWebEnvironment true a))) w.

(** [setInstallConfig(prev => ({...prev, install_path: defaultPath}))] *)
Definition defaultpath_resolved (defaultPath : string) (w : World) : World :=
  with_app (fun a =>
    let prev := installConfig a in
    setInstallConfig (mkInstallConfig defaultPath (model_type prev) (use_gpu prev)) a) w.

(** Only [console.error]: the fallback path stays. *)
Definition defaultpath_rejected (w : World) : World := w.

(** [startInstallation], up to its [await]. *)
Definition startInstallation (w : World) : World :=
  if isWebEnvironment (app w) then
    alert "安装功能仅在桌面应用中可用，Web环境不支持安装。" w
  else
    let w := with_app (setInstalling true) w in
    let w := with_app (setError None) w in
    invoke (start_installation (installConfig (app w))) KStart w.

(** [startInstallation] after the [await]: the poll timer is armed. *)
Definition start_resolved (w : World) : World := setInterval w.

(** [startInstallation], outer [catch]. *)
Definition start_rejected (err : string) (w : World) : World :=
  let w := with_app (setInstalling false) w in
  with_app (setError (Some ("启动安装失败: " ++ err))) w.

(** The interval callback of timer [t], up to its [await]. *)
Definition tick (t : nat) (w : World) : World :=
  invoke get_installation_progress (KPoll t) w.

(** The interval callback after its [await]. *)
Definition poll_resolved (t : nat) (progress : InstallProgress) (w : World) : World :=
  let w := with_app (setInstallProgress progress) w in
  if is_complete progress || has_error progress then
    let w := clearInterval t w in
    let w := with_app (setInstalling false) w in
    if has_error progress then
      with_app (setError (Some ("安装失败: " ++ message progress))) w
    else w
  else w.

(** The interval callback, inner [catch]. *)
Definition poll_rejected (t : nat) (err : string) (w : World) : World :=
  let w := clearInterval t w in
  let w := with_app (setInstalling false) w in
  with_app (setError (Some ("获取安装进度失败: " ++ err))) w.

Definition launchIndexTTS (w : World) : World :=
  invoke (launch_indextts (install_path (installConfig (app w)))) KLaunch w.
Definition launch_resolved (result : string) (w : World) : World := alert result w.
Definition launch_rejected (err : string) (w : World) : World :=
  alert ("启动失败: " ++ err) w.

Definition openInstallDirectory (w : World) : World :=
  invoke (open_install_directory (install_path (installConfig (app w)))) KOpen w.
Definition open_resolved (w : World) : World := w.
Definition open_rejected (err : string) (w : World) : World :=
  alert ("打开目录失败: " ++ err) w.

(** The arrow function on the restart button of the failure panel. *)
Definition restart_clicked (w : World) : World :=
  let w := with_app (setInstalling false) w in
  with_app (setInstallProgress idle_progress) w.

(** The three [onChange] handlers of the configuration form. *)
Definition change_install_path (v : string) (w : World) : World :=
  with_app (fun a =>
    let c := installConfig a in
    setInstallConfig (mkInstallConfig v (model_type c) (use_gpu c)) a) w.
Definition change_model_type (v : string) (w : World) : World :=
  with_app (fun a =>
    let c := installConfig a in
    setInstallConfig (mkInstallConfig (install_path c) v (use_gpu c)) a) w.
Definition change_use_gpu (v : bool) (w : World) : World :=
  with_app (fun a =>
    let c := installConfig a in
    setInstallConfig (mkInstallConfig (install_path c) (model_type c) v) a) w.

(** ** What the render offers *)

(** The [<option>] elements of the model select. *)
Inductive ModelOption := standard | large | small.

Definition option_value (o : ModelOption) : string :=
  match o with
  | standard => "standard"
  | large => "large"
  | small => "small"
  end.

(** The configuration form and the start button are in the [!installing]
    branch of the installation card. *)
Definition form_rendered (a : AppState) : bool := negb (installing a).

(** [disabled={!systemInfo || systemStatus.status === 'error' ||
    isWebEnvironment || installing}] *)
Definition start_disabled (a : AppState) : bool :=
  match systemInfo a with None => true | Some _ => false end
  || (status (systemStatus (systemInfo a)) =? "error")
  || isWebEnvironment a
  || installing a.

Definition start_clickable (a : AppState) : bool :=
  form_rendered a && negb (start_disabled a).

(** The failure panel, with the restart button, is in the other branch. *)
Definition restart_rendered (a : AppState) : bool :=
  installing a && has_error (installProgress a).

(** The completion panel, with the launch and open-directory buttons. *)
Definition completion_rendered (a : AppState) : bool :=
  installing a
  && (is_complete (installProgress a) || (step (installProgress a) =? "completed")).

(** The re-detect button: [disabled={loading}]. *)
Definition recheck_clickable (a : AppState) : bool := negb (loading a).

(** A click reaches the handler only when the button is rendered and
    enabled; otherwise nothing runs. *)
Definition click_start (w : World) : World :=
  if start_clickable (app w) then startInstallation w else w.

Definition click_restart (w : World) : World :=
  if restart_rendered (app w) then restart_clicked w else w.

(** ** The event loop *)

Inductive Event :=
(* user *)
| ClickStart
| ClickRestart
| ClickRecheck
| ClickLaunch
| ClickOpen
| ChangePath (v : string)
| ChangeModel (o : ModelOption)
| ChangeGpu (v : bool)
(* timer *)
| Tick (t : nat)
(* host answers *)
| ProbeOk | ProbeErr
| DefaultPathOk (path : string) | DefaultPathErr
| SysInfoOk (info : SystemInfo) | SysInfoErr (err : string)
| StartOk | StartErr (err : string)
| PollOk (t : nat) (progress : InstallProgress) | PollErr (t : nat) (err : string)
| LaunchOk (result : string) | LaunchErr (err : string)
| OpenOk | OpenErr (err : string).

(** An answer needs an outstanding call of its kind. *)
Definition answer (k : Pending) (f : World -> World) (w : World) : option World :=
  match settle k (pending w) with
  | Some p => Some (f (with_pending p w))
  | None => None
  end.

Definition guard (b : bool) (f : World -> World) (w : World) : option World :=
  if b then Some (f w) else None.

(** One turn of the event loop; [None] when the event cannot happen in [w]
    (button absent or disabled, timer not armed, no such call outstanding). *)
Definition step_event (e : Event) (w : World) : option World :=
  match e with
  | ClickStart => guard (start_clickable (app w)) startInstallation w
  | ClickRestart => guard (restart_rendered (app w)) restart_clicked w
  | ClickRecheck => guard (recheck_clickable (app w)) checkSystemInfo w
  | ClickLaunch => guard (completion_rendered (app w)) launchIndexTTS w
  | ClickOpen => guard (completion_rendered (app w)) openInstallDirectory w
  | ChangePath v => guard (form_rendered (app w)) (change_install_path v) w
  | ChangeModel o => guard (form_rendered (app w)) (change_model_type (option_value o)) w
  | ChangeGpu v => guard (form_rendered (app w)) (change_use_gpu v) w
  | Tick t => guard (if in_dec Nat.eq_dec t (timers w) then true else false) (tick t) w
  | ProbeOk => answer KProbe probe_resolved w
  | ProbeErr => answer KProbe probe_rejected w
  | DefaultPathOk path => answer KDefaultPath (defaultpath_resolved path) w
  | DefaultPathErr => answer KDefaultPath defaultpath_rejected w
  | SysInfoOk info => answer KSysInfo (sysinfo_resolved info) w
  | SysInfoErr err => answer KSysInfo (sysinfo_rejected err) w
  | StartOk => answer KStart start_resolved w
  | StartErr err => answer KStart (start_rejected err) w
  | PollOk t progress => answer (KPoll t) (poll_resolved t progress) w
  | PollErr t err => answer (KPoll t) (poll_rejected t err) w
  | LaunchOk result => answer KLaunch (launch_resolved result) w
  | LaunchErr err => answer KLaunch (launch_rejected err) w
  | OpenOk => answer KOpen open_resolved w
  | OpenErr err => answer KOpen (open_rejected err) w
  end.

Fixpoint run (es : list Event) (w : World) : option World :=
  match es with
  | [] => Some w
  | e :: es' =>
      match step_event e w with
      | Some w' => run es' w'
      | None => None
      end
  end.

(** The component after its first render and the effect hook. *)
Definition mounted : World :=
  checkEnvironment (mkWorld initial_state [] 0 [] [] []).

(** Number of progress polls among the calls issued. *)
Definition is_poll (c : Command) : bool :=
  match c with get_installation_progress => true | _ => false end.
Definition is_start (c : Command) : bool :=
  match c with start_installation _ => true | _ => false end.
Definition poll_calls (w : World) : nat := length (filter is_poll (calls w)).
Definition start_calls (w : World) : nat := length (filter is_start (calls w)).

(** Number of progress polls that are outstanding. *)
Definition is_kpoll (k : Pending) : bool :=
  match k with KPoll _ => true | _ => false end.
Definition polls_outstanding (w : World) : nat := length (filter is_kpoll (pending w)).

(** ** The step display *)

Record StepDef := mkStepDef { key : string; label : string; icon : string }.

Definition install_steps : list StepDef :=
  [ mkStepDef "preparing" "准备环境" "🔧";
    mkStepDef "downloading" "下载源码" "📥";
    mkStepDef "models" "安装模型" "🧠";
    mkStepDef "dependencies" "配置依赖" "📦";
    mkStepDef "configuring" "完成配置" "⚙️" ].

Inductive BoxStyle := BoxCompleted | BoxActive | BoxPlain.
Inductive LabelStyle := LabelActive | LabelCompleted | LabelPlain.

Record StepView := mkStepView {
  view_key : string;
  isActive : bool;
  isCompleted : bool;
  box : BoxStyle;
  shown_icon : string;
  label_style : LabelStyle;
  shown_label : string
}.

(** [x > y] on numbers. *)
Definition Qgtb (x y : Q) : bool := negb (Qle_bool x y).

(** [Array.prototype.map] with the index. *)
Fixpoint mapi_from {A B} (i : nat) (f : A -> nat -> B) (l : list A) : list B :=
  match l with
  | [] => []
  | x :: l' => f x i :: mapi_from (S i) f l'
  end.
Definition mapi {A B} (f : A -> nat -> B) (l : list A) : list B := mapi_from 0 f l.

(** The callback of [.map((step, index) => ...)].  In double arithmetic
    [(index / 5) * 100] is exactly 0, 20, 40, 60, 80 for the five indices,
    as it is over the rationals. *)
Definition render_step (installProgress : InstallProgress) (s : StepDef) (index : nat)
  : StepView :=
  let isActive := step installProgress =? key s in
  let isCompleted :=
    Qgtb (progress installProgress) ((inject_Z (Z.of_nat index) / 5) * 100) in
  mkStepView (key s) isActive isCompleted
    (if isCompleted then BoxCompleted else if isActive then BoxActive else BoxPlain)
    (if isCompleted then "✅" else if isActive then icon s else icon s)
    (if isActive then LabelActive else if isCompleted then LabelCompleted else LabelPlain)
    (label s).

Definition render_steps (installProgress : InstallProgress) : list StepView :=
  mapi (render_step installProgress) install_steps.

(** ** The tool badges of the system card *)

(** [v ? `✓ ${v}` : '✗ 未安装'], for [python_version] and [git_version];
    in the first branch [v] is a non-empty string. *)
Definition tool_badge (v : option string) : string :=
  match v with
  | Some s => if truthy v then "✓ " ++ s else "✗ 未安装"
  | None => "✗ 未安装"
  end.

(** * Vocabulary of the properties *)

Definition low_memory (info : SystemInfo) : bool :=
  (total_memory info <? 8 * 2 ^ 30)%Z.
Definition low_disk (info : SystemInfo) : bool :=
  (available_disk_space info <? 10 * 2 ^ 30)%Z.

(** Number of the four checks that fail, a version counting as missing when
    it is falsy. *)
Definition failing_checks (info : SystemInfo) : nat :=
  Nat.b2n (low_memory info) + Nat.b2n (low_disk info)
  + Nat.b2n (negb (truthy (python_version info)))
  + Nat.b2n (negb (truthy (git_version info))).

(** A profile that passes the memory and disk checks and has both tools. *)
Definition good_info : SystemInfo :=
  mkSystemInfo "macOS" "14.5" "Apple M2" 8
    (16 * 2 ^ 30) (9 * 2 ^ 30) (512 * 2 ^ 30) (200 * 2 ^ 30)
    ["Apple M2"] (Some "Python 3.11.6") (Some "git version 2.44.0") false.

(** The same machine, whose Python version string came back empty. *)
Definition empty_python_info : SystemInfo :=
  mkSystemInfo "macOS" "14.5" "Apple M2" 8
    (16 * 2 ^ 30) (9 * 2 ^ 30) (512 * 2 ^ 30) (200 * 2 ^ 30)
    ["Apple M2"] (Some "") (Some "git version 2.44.0") false.

(** Timer ids are handed out in increasing order and never reused. *)
Definition timers_fresh (w : World) : Prop :=
  (forall t, In t (timers w) -> (t < next_timer w)%nat)
  /\ (forall t, In (KPoll t) (pending w) -> (t < next_timer w)%nat).

(** A timer that was cleared: it is not armed and its id is used up. *)
Definition retired (t : nat) (w : World) : Prop :=
  ~ In t (timers w) /\ (t < next_timer w)%nat.

(** The poll loop of timer [t] has stopped in [w]: whatever happens from [w]
    on, the callback of [t] never runs again, so it issues no further poll. *)
Definition loop_stopped (t : nat) (w : World) : Prop :=
  forall es w', run es w = Some w' -> step_event (Tick t) w' = None.

(** Desktop environment found, profile loaded: the installer is ready. *)
Definition session_ready : list Event :=
  [ProbeOk; SysInfoOk good_info; DefaultPathOk "/Applications/IndexTTS"].

Definition report_40 : InstallProgress :=
  mkInstallProgress "downloading" 40 "下载中" false false.
Definition report_done : InstallProgress :=
  mkInstallProgress "completed" 100 "安装完成" true false.
Definition report_failed : InstallProgress :=
  mkInstallProgress "models" 55 "disk full" false true.

Definition session_running : list Event :=
  session_ready ++ [ClickStart; StartOk].
Definition session_completed : list Event :=
  session_running ++ [Tick 0%nat; PollOk 0%nat report_40; Tick 0%nat; PollOk 0%nat report_done].
Definition session_failed : list Event :=
  session_running ++ [Tick 0%nat; PollOk 0%nat report_failed].

(** The world a session ends in ([mounted] itself if some event of the
    session could not happen; the lemmas below show that each one can). *)
Definition world_after (es : list Event) : World :=
  match run es mounted with Some w => w | None => mounted end.

Definition session_polling : list Event := session_running ++ [Tick 0%nat].

Definition session_transport_error : list Event :=
  session_polling ++ [PollErr 0%nat "connection lost"].

Definition session_overlapping : list Event :=
  session_running
  ++ [Tick 0%nat; Tick 0%nat; Tick 0%nat;
      PollOk 0%nat report_40; PollOk 0%nat report_done].

Definition session_restarted : list Event :=
  session_failed ++ [ClickStart; StartOk].

Definition offered_model_types : list string :=
  map option_value [standard; large; small].

Definition session_start_untouched : list Event := session_ready ++ [ClickStart].

(** What does hold: the model type is the initial constant or a value picked
    in the select. *)
Definition model_type_known (w : World) : Prop :=
  In (model_type (installConfig (app w))) ("base" :: offered_model_types).

Definition is_profile_answer (e : Event) : bool :=
  match e with SysInfoOk _ => true | _ => false end.

Definition no_profile_answer (es : list Event) : bool :=
  forallb (fun e => negb (is_profile_answer e)) es.

(** A desktop session in which the profile fetch fails twice. *)
Definition session_no_profile : list Event :=
  [ProbeOk; SysInfoErr "timeout"; DefaultPathOk "/Applications/IndexTTS";
   ClickRecheck; SysInfoErr "timeout"].

(** Number of outstanding host calls of one kind. *)
Definition outstanding (k : Pending) (w : World) : nat :=
  count_occ Pending_eq_dec (pending w) k.

Definition is_probe_answer (e : Event) : bool :=
  match e with ProbeOk | ProbeErr => true | _ => false end.
Definition is_probe_failure (e : Event) : bool :=
  match e with ProbeErr => true | _ => false end.
Definition is_start_accepted (e : Event) : bool :=
  match e with StartOk => true | _ => false end.
Definition is_tick (e : Event) : bool :=
  match e with Tick _ => true | _ => false end.
Definition is_default_path (e : Event) : bool :=
  match e with DefaultPathOk _ => true | _ => false end.
Definition is_launch_or_open (e : Event) : bool :=
  match e with
  | ClickLaunch | ClickOpen | LaunchOk _ | LaunchErr _ | OpenOk | OpenErr _ => true
  | _ => false
  end.

Definition probe_answers (es : list Event) : nat := length (filter is_probe_answer es).
Definition probe_failed (es : list Event) : bool := existsb is_probe_failure es.
Definition ticks (es : list Event) : nat := length (filter is_tick es).

(** The three stages of a session: the environment probe is outstanding; it
    was rejected (web environment); it was accepted (desktop). *)
Definition probe_phase (w : World) : Prop :=
  pending w = [KProbe]
  /\ installing (app w) = false /\ loading (app w) = true
  /\ systemInfo (app w) = None /\ isWebEnvironment (app w) = false
  /\ timers w = [] /\ start_calls w = 0%nat /\ poll_calls w = 0%nat
  /\ calls w = [get_default_install_path].

Definition web_phase (w : World) : Prop :=
  isWebEnvironment (app w) = true
  /\ (forall k, In k (pending w) -> k = KSysInfo)
  /\ installing (app w) = false
  /\ timers w = [] /\ start_calls w = 0%nat /\ poll_calls w = 0%nat.

Definition desktop_phase (w : World) : Prop :=
  isWebEnvironment (app w) = false /\ outstanding KProbe w = 0%nat.

(** The profile fetches and the loading flag go together. *)
Definition loading_tracks_fetch (w : World) : Prop :=
  (outstanding KProbe w + outstanding KSysInfo w <= 1)%nat
  /\ (loading (app w) = true ->
      (outstanding KProbe w + outstanding KSysInfo w = 1)%nat)
  /\ (loading (app w) = false ->
      (outstanding KProbe w + outstanding KSysInfo w = 0)%nat).

(** While the in-flight flag is set, something is still to come. *)
Definition installing_backed (w : World) : Prop :=
  installing (app w) = true -> In KStart (pending w) \/ timers w <> [].

Definition session_web : list Event :=
  [ProbeErr; ClickRecheck; SysInfoOk good_info; ChangeModel large].

Definition session_redetect_fails : list Event :=
  [ClickRecheck; SysInfoErr "timeout"].

Definition session_start_rejected_twice : list Event :=
  session_ready
  ++ [ClickStart; StartErr "permission denied"; ClickStart; StartErr "permission denied"].

Definition session_step_completed : list Event :=
  session_running
  ++ [Tick 0%nat; PollOk 0%nat (mkInstallProgress "completed" 100 "done" false false);
      ClickLaunch].

(** The restart button is used while the second installation is in flight. *)
Definition session_restart_in_flight : list Event :=
  session_restarted ++ [ClickRestart].

(** A third start after that: two poll timers are armed, and timer 1 has a
    poll outstanding. *)
Definition session_two_loops : list Event :=
  session_restart_in_flight ++ [ClickStart; StartOk; Tick 1%nat].

Definition session_start_rejected : list Event :=
  session_ready ++ [ClickStart; StartErr "permission denied"].

(** * Properties *)

(** ** System status *)

Lemma truthy_false (v : option string) :
  truthy v = false <-> v = None \/ v = Some "".
Proof.
  destruct v as [s|]; simpl.
  - rewrite negb_false_iff, String.eqb_eq. split.
    + intros ->. now right.
    + intros [H|H]; congruence.
  - split; auto.
Qed.

Lemma issues_by_check (info : SystemInfo) :
  issues info =
    ((if low_memory info then ["内存不足8GB，可能影响性能"] else [])
     ++ (if low_disk info then ["可用磁盘空间不足10GB"] else [])
     ++ (if truthy (python_version info) then [] else ["未检测到Python"])
     ++ (if truthy (git_version info) then [] else ["未检测到Git"]))%list.
Proof.
  unfold issues, low_memory, low_disk, push.
  change (8 * 1024 * 1024 * 1024)%Z with (8 * 2 ^ 30)%Z.
  change (10 * 1024 * 1024 * 1024)%Z with (10 * 2 ^ 30)%Z.
  destruct (total_memory info <? 8 * 2 ^ 30)%Z,
           (available_disk_space info <? 10 * 2 ^ 30)%Z,
           (truthy (python_version info)), (truthy (git_version info));
    reflexivity.
Qed.

Lemma issues_length (info : SystemInfo) :
  length (issues info) = failing_checks info.
Proof.
  rewrite issues_by_check. unfold failing_checks.
  destruct (low_memory info), (low_disk info),
           (truthy (python_version info)), (truthy (git_version info));
    reflexivity.
Qed.

(** C2, as amended.  For every machine profile, [getSystemStatus] collects
    one diagnostic, in this order, for each failing check: total memory below
    8*2^30 bytes, available disk space below 10*2^30 bytes, Python version
    falsy (absent or the empty string), Git version falsy (absent or the empty
    string).  The status is good for no diagnostic, warning for one or two,
    error for three or four.  Without a profile the status is unknown and no
    diagnostic is computed. *)
Theorem getSystemStatus_verdict (info : SystemInfo) :
  issues info =
    ((if low_memory info then ["内存不足8GB，可能影响性能"] else [])
     ++ (if low_disk info then ["可用磁盘空间不足10GB"] else [])
     ++ (if truthy (python_version info) then [] else ["未检测到Python"])
     ++ (if truthy (git_version info) then [] else ["未检测到Git"]))%list
  /\ length (issues info) = failing_checks info
  /\ status (getSystemStatus (Some info)) =
       match failing_checks info with
       | 0%nat => "good"
       | 1%nat | 2%nat => "warning"
       | _ => "error"
       end
  /\ (truthy (python_version info) = false <->
        python_version info = None \/ python_version info = Some "")
  /\ (truthy (git_version info) = false <->
        git_version info = None \/ git_version info = Some "")
  /\ getSystemStatus None = mkSystemStatus "unknown" "系统信息未知"
  /\ systemStatus None = mkSystemStatus "unknown" "".
Proof.
  split; [apply issues_by_check|].
  split; [apply issues_length|].
  split.
  - unfold getSystemStatus. rewrite issues_length.
    destruct (failing_checks info) as [|[|[|n]]]; reflexivity.
  - repeat split; try apply truthy_false; intros H; apply truthy_false; exact H.
Qed.

(** C2, counterexample.  A profile with enough memory and disk space and with
    both version fields present gets a diagnostic and the status warning when
    the Python version present is the empty string. *)
Lemma empty_version_counts_as_missing :
  (total_memory empty_python_info >= 8 * 2 ^ 30)%Z
  /\ (available_disk_space empty_python_info >= 10 * 2 ^ 30)%Z
  /\ python_version empty_python_info <> None
  /\ git_version empty_python_info <> None
  /\ issues empty_python_info = ["未检测到Python"]
  /\ status (getSystemStatus (Some empty_python_info)) = "warning".
Proof.
  repeat split; try discriminate; vm_compute; congruence.
Qed.

Example good_info_status :
  getSystemStatus (Some good_info) = mkSystemStatus "good" "系统环境良好，可以开始安装".
Proof. reflexivity. Qed.

(** ** Step display *)

Lemma Qgtb_lt (x y : Q) : Qgtb x y = true <-> (y < x)%Q.
Proof.
  unfold Qgtb. rewrite negb_true_iff. split.
  - intros H. apply Qnot_le_lt. intros Hle.
    apply Qle_bool_iff in Hle. congruence.
  - intros H. destruct (Qle_bool x y) eqn:E; [|reflexivity].
    apply Qle_bool_iff in E. exfalso. exact (Qlt_not_le _ _ H E).
Qed.

Lemma mapi_from_nth {A B} (f : A -> nat -> B) (l : list A) :
  forall (k i : nat) (x : A),
    nth_error l i = Some x ->
    nth_error (mapi_from k f l) i = Some (f x (k + i)%nat).
Proof.
  induction l as [|y l IH]; intros k i x H.
  - destruct i; discriminate.
  - destruct i as [|i]; simpl in *.
    + injection H as ->. now rewrite Nat.add_0_r.
    + rewrite (IH (S k) i x H). f_equal. f_equal. lia.
Qed.

Lemma mapi_from_length {A B} (f : A -> nat -> B) (l : list A) :
  forall k, length (mapi_from k f l) = length l.
Proof. induction l; intros; simpl; auto. Qed.

(** C8.  For every progress report and every index [i] into the five install
    steps, the rendered step [i] exists (the mapping is total, five entries
    whatever the report holds).  It is marked active, by its local flag and
    by the class of its label, exactly when the report's step equals its
    key; it is marked completed, by its local flag, by the class of its box
    and by the check mark shown in it, exactly when the report's progress is
    strictly greater than (i / 5) * 100.  The box takes the active class only
    for an active step that is not completed, the label the completed class
    only for a completed step that is not active, and the label text is the
    step's own.  The display is a function of the report alone and returns
    only the view. *)
Theorem render_steps_spec (p : InstallProgress) (i : nat) (s : StepDef) :
  nth_error install_steps i = Some s ->
  length (render_steps p) = 5%nat
  /\ exists v, nth_error (render_steps p) i = Some v
       /\ view_key v = key s
       /\ (isActive v = true <-> step p = key s)
       /\ (isCompleted v = true <->
             ((inject_Z (Z.of_nat i) / 5) * 100 < progress p)%Q)
       /\ (label_style v = LabelActive <-> step p = key s)
       /\ (box v = BoxCompleted <->
             ((inject_Z (Z.of_nat i) / 5) * 100 < progress p)%Q)
       /\ (shown_icon v = "✅" <->
             ((inject_Z (Z.of_nat i) / 5) * 100 < progress p)%Q)
       /\ (box v = BoxActive <->
             step p = key s
             /\ ~ ((inject_Z (Z.of_nat i) / 5) * 100 < progress p)%Q)
       /\ (label_style v = LabelCompleted <->
             step p <> key s
             /\ ((inject_Z (Z.of_nat i) / 5) * 100 < progress p)%Q)
       /\ (shown_icon v <> "✅" -> shown_icon v = icon s)
       /\ shown_label v = label s.
Proof.
  intros H. split; [reflexivity|].
  assert (Hicon : icon s <> "✅").
  { destruct i as [|[|[|[|[|i]]]]]; simpl in H;
      try (injection H as <-; simpl; discriminate).
    destruct i; discriminate H. }
  exists (render_step p s i). split.
  { unfold render_steps, mapi. now rewrite (mapi_from_nth _ _ 0 i s H). }
  pose proof (String.eqb_eq (step p) (key s)) as Ha.
  pose proof (Qgtb_lt (progress p) ((inject_Z (Z.of_nat i) / 5) * 100)) as Hc.
  unfold render_step.
  cbn [view_key isActive isCompleted box shown_icon label_style shown_label].
  destruct (step p =? key s), (Qgtb (progress p) ((inject_Z (Z.of_nat i) / 5) * 100));
    (split; [reflexivity|]); (split; [exact Ha|]); (split; [exact Hc|]);
    repeat split; try intros; try reflexivity; try discriminate;
    try tauto; try intuition congruence.
Qed.

Lemma render_steps_spec_witness :
  nth_error install_steps 2 = Some (mkStepDef "models" "安装模型" "🧠")
  /\ length (render_steps (mkInstallProgress "models" 45 "" false false)) = 5%nat
  /\ exists v,
       nth_error (render_steps (mkInstallProgress "models" 45 "" false false)) 2 = Some v
       /\ isActive v = true /\ isCompleted v = true
       /\ label_style v = LabelActive /\ box v = BoxCompleted
       /\ shown_icon v = "✅".
Proof.
  split; [reflexivity|].
  destruct (render_steps_spec (mkInstallProgress "models" 45 "" false false) 2
              (mkStepDef "models" "安装模型" "🧠") eq_refl)
    as (L & v & Hn & _ & Ha & Hc & Hl & Hb & Hi & _).
  assert (Hq : ((inject_Z (Z.of_nat 2) / 5) * 100
                < progress (mkInstallProgress "models" 45 "" false false))%Q)
    by (vm_compute; reflexivity).
  split; [exact L|]. exists v. split; [exact Hn|].
  split; [apply Ha; reflexivity|]. split; [apply Hc; exact Hq|].
  split; [apply Hl; reflexivity|]. split; [apply Hb; exact Hq|].
  apply Hi; exact Hq.
Defined.

(** A report whose progress contradicts its step is rendered all the same:
    at 90 percent in step preparing, the first step is active and
    completed. *)
Example inconsistent_report_rendered :
  map (fun v => (view_key v, isActive v, isCompleted v))
      (render_steps (mkInstallProgress "preparing" 90 "" false false))
  = [("preparing", true, true); ("downloading", false, true);
     ("models", false, true); ("dependencies", false, true);
     ("configuring", false, true)].
Proof. vm_compute. reflexivity. Qed.

(** The thresholds are 0, 20, 40, 60 and 80. *)
Example thresholds :
  map (fun i => Qred ((inject_Z (Z.of_nat i) / 5) * 100)) [0; 1; 2; 3; 4]%nat
  = [0; 20; 40; 60; 80]%Q.
Proof. vm_compute. reflexivity. Qed.

(** ** Event loop: bookkeeping lemmas *)

Lemma settle_In (k : Pending) (l p : list Pending) :
  settle k l = Some p -> In k l /\ (forall x, In x p -> In x l).
Proof.
  revert p. induction l as [|y l IH]; simpl; intros p H; [discriminate|].
  destruct (Pending_eq_dec k y) as [->|Hne].
  - injection H as <-. split; auto.
  - destruct (settle k l) as [r|] eqn:E; [|discriminate].
    injection H as <-. destruct (IH r eq_refl) as [Hin Hsub].
    split; [now right|]. intros x [->|Hx]; [now left|right; auto].
Qed.

Lemma settle_push (k : Pending) (l : list Pending) :
  settle k (push l k) <> None.
Proof.
  unfold push. induction l as [|y l IH]; simpl.
  - destruct (Pending_eq_dec k k); congruence.
  - destruct (Pending_eq_dec k y); [discriminate|].
    destruct (settle k (l ++ [k])); congruence.
Qed.

(** Unfolds one turn of the event loop in hypothesis [H]. *)
Ltac unstep H :=
  unfold step_event, answer, guard in H;
  repeat match type of H with
  | context [settle ?k ?l] =>
      let E := fresh "Esettle" in destruct (settle k l) eqn:E
  | context [if ?b then _ else _] =>
      let E := fresh "Eguard" in destruct b eqn:E
  end;
  try discriminate H;
  try (injection H as H).

Lemma In_remove_sub (t x : nat) (l : list nat) :
  In x (remove Nat.eq_dec t l) -> In x l.
Proof. intros H. now apply in_remove in H. Qed.

Lemma poll_resolved_shape (t : nat) (r : InstallProgress) (w : World) :
  next_timer (poll_resolved t r w) = next_timer w
  /\ pending (poll_resolved t r w) = pending w
  /\ calls (poll_resolved t r w) = calls w
  /\ (timers (poll_resolved t r w) = timers w
      \/ timers (poll_resolved t r w) = remove Nat.eq_dec t (timers w)).
Proof.
  unfold poll_resolved.
  destruct (is_complete r), (has_error r); simpl; auto.
Qed.

Ltac pose_poll_shape Hn Hq Hc Hm :=
  match goal with
  | |- context [poll_resolved ?t ?r ?w] =>
      destruct (poll_resolved_shape t r w) as (Hn & Hq & Hc & Hm)
  end.

Lemma step_timers_fresh (e : Event) (w w' : World) :
  timers_fresh w -> step_event e w = Some w' -> timers_fresh w'.
Proof.
  intros [Ht Hp] H.
  destruct e; unstep H; subst w';
    try (split; simpl; intros x Hx; auto; fail).
  all: try (apply settle_In in Esettle; destruct Esettle as [Hin Hsub]).
  all: try (split; simpl; intros x Hx; auto; fail).
  - (* startInstallation *)
    unfold startInstallation. destruct (isWebEnvironment (app w)); split; simpl;
      intros x Hx; auto.
    apply in_app_or in Hx. destruct Hx as [Hx|[Hx|[]]]; [auto|discriminate].
  - (* checkSystemInfo *)
    split; simpl; intros x Hx; auto.
    apply in_app_or in Hx. destruct Hx as [Hx|[Hx|[]]]; [auto|discriminate].
  - split; simpl; intros x Hx; auto.
    apply in_app_or in Hx. destruct Hx as [Hx|[Hx|[]]]; [auto|discriminate].
  - split; simpl; intros x Hx; auto.
    apply in_app_or in Hx. destruct Hx as [Hx|[Hx|[]]]; [auto|discriminate].
  - (* tick *)
    split; simpl; intros x Hx; auto.
    apply in_app_or in Hx. destruct Hx as [Hx|[Hx|[]]]; [auto|].
    injection Hx as <-. destruct (in_dec Nat.eq_dec t (timers w)); [auto|discriminate].
  - (* probe_resolved *)
    split; simpl; intros x Hx; auto.
    unfold push in Hx.
    apply in_app_or in Hx. destruct Hx as [Hx|[Hx|[]]]; [|discriminate].
    apply in_app_or in Hx. destruct Hx as [Hx|[Hx|[]]]; [auto|discriminate].
  - (* start_resolved *)
    split; simpl; intros x Hx.
    + destruct Hx as [<-|Hx]; [lia|]. apply Ht in Hx. lia.
    + apply Hsub, Hp in Hx. lia.
  - (* poll_resolved *)
    pose_poll_shape Hn Hq Hc Hm.
    split; rewrite Hn; simpl.
    + intros x Hx. destruct Hm as [Hm|Hm]; rewrite Hm in Hx; simpl in Hx.
      * auto.
      * apply In_remove_sub in Hx. auto.
    + intros x Hx. rewrite Hq in Hx. simpl in Hx. auto.
  - (* poll_rejected *)
    split; simpl; intros x Hx; auto.
    apply In_remove_sub in Hx. auto.
Qed.

Lemma run_timers_fresh (es : list Event) :
  forall w w', timers_fresh w -> run es w = Some w' -> timers_fresh w'.
Proof.
  induction es as [|e es IH]; simpl; intros w w' Hw H.
  - now injection H as <-.
  - destruct (step_event e w) as [w1|] eqn:E; [|discriminate].
    eapply IH; [|exact H]. eapply step_timers_fresh; eauto.
Qed.

Lemma mounted_timers_fresh : timers_fresh mounted.
Proof.
  split; simpl; intros t H; [contradiction|].
  destruct H as [H|[]]; discriminate.
Qed.

Lemma step_retired (t : nat) (e : Event) (w w' : World) :
  retired t w -> step_event e w = Some w' -> retired t w'.
Proof.
  intros [Hn Hlt] H.
  destruct e; unstep H; subst w'; try (split; simpl; auto; fail).
  - unfold startInstallation. destruct (isWebEnvironment (app w)); split; simpl; auto.
  - (* start_resolved *)
    split; simpl; [|lia]. intros [Heq|Hin]; [lia|auto].
  - pose_poll_shape Hnx Hq Hc Hm.
    split; [|rewrite Hnx; simpl; auto].
    destruct Hm as [Hm|Hm]; rewrite Hm; simpl; auto.
    intros Hx. apply In_remove_sub in Hx. auto.
  - split; simpl; auto. intros Hx. apply In_remove_sub in Hx. auto.
Qed.

Lemma run_retired (t : nat) (es : list Event) :
  forall w w', retired t w -> run es w = Some w' -> retired t w'.
Proof.
  induction es as [|e es IH]; simpl; intros w w' Hw H.
  - now injection H as <-.
  - destruct (step_event e w) as [w1|] eqn:E; [|discriminate].
    eapply IH; [|exact H]. eapply step_retired; eauto.
Qed.

Lemma retired_no_tick (t : nat) (w : World) :
  retired t w -> step_event (Tick t) w = None.
Proof.
  intros [Hn _]. unfold step_event, guard.
  destruct (in_dec Nat.eq_dec t (timers w)); [contradiction|reflexivity].
Qed.

Lemma retired_loop_stopped (t : nat) (w : World) :
  retired t w -> loop_stopped t w.
Proof.
  intros Hr es w' H. apply retired_no_tick. eapply run_retired; eauto.
Qed.

(** Progress polls are issued by timer callbacks and by nothing else. *)
Lemma poll_only_on_tick (e : Event) (w w' : World) :
  step_event e w = Some w' ->
  poll_calls w' = match e with Tick _ => S (poll_calls w) | _ => poll_calls w end.
Proof.
  intros H. unfold poll_calls.
  destruct e; unstep H; subst w'; try reflexivity.
  - unfold startInstallation. destruct (isWebEnvironment (app w)); reflexivity.
  - pose_poll_shape Hn Hq Hc Hm. now rewrite Hc.
Qed.

(** ** Concrete sessions *)

Lemma session_running_ok : run session_running mounted = Some (world_after session_running).
Proof. vm_compute. reflexivity. Qed.
Lemma session_completed_ok :
  run session_completed mounted = Some (world_after session_completed).
Proof. vm_compute. reflexivity. Qed.
Lemma session_failed_ok : run session_failed mounted = Some (world_after session_failed).
Proof. vm_compute. reflexivity. Qed.

(** ** Starting *)

Lemma start_disabled_not_clickable (a : AppState) :
  start_disabled a = true -> start_clickable a = false.
Proof. unfold start_clickable. intros ->. apply andb_false_r. Qed.

Lemma installing_not_clickable (a : AppState) :
  installing a = true -> start_clickable a = false.
Proof. unfold start_clickable, form_rendered. now intros ->. Qed.

(** Whenever the in-flight flag is set the start button is not offered:
    a click runs no handler and the world is unchanged. *)
Theorem start_ignored_while_installing (w : World) :
  installing (app w) = true ->
  start_disabled (app w) = true
  /\ click_start w = w
  /\ step_event ClickStart w = None.
Proof.
  intros H. split; [|split].
  - unfold start_disabled. rewrite H. now rewrite !orb_true_r.
  - unfold click_start. now rewrite installing_not_clickable.
  - unfold step_event, guard. now rewrite installing_not_clickable.
Qed.

Lemma start_ignored_while_installing_witness :
  installing (app (world_after session_running)) = true
  /\ (start_disabled (app (world_after session_running)) = true
      /\ click_start (world_after session_running) = world_after session_running
      /\ step_event ClickStart (world_after session_running) = None).
Proof.
  split; [reflexivity|].
  apply (start_ignored_while_installing (world_after session_running)).
  reflexivity.
Defined.

(** C1, on the code.  After an installation has completed, the poll handler
    has cleared the in-flight flag: the start button is offered again, and
    invoking start issues a second start_installation call and sets the
    flag.  The same happens while an installation is still being polled: the
    restart button, offered in flight over a stale failed report, clears the
    flag and leaves the timer armed, and start is then accepted a third
    time. *)
Lemma start_accepted_after_completion :
  run session_completed mounted = Some (world_after session_completed)
  /\ is_complete (installProgress (app (world_after session_completed))) = true
  /\ installing (app (world_after session_completed)) = false
  /\ timers (world_after session_completed) = []
  /\ start_calls (world_after session_completed) = 1%nat
  /\ start_calls (click_start (world_after session_completed)) = 2%nat
  /\ installing (app (click_start (world_after session_completed))) = true
  /\ click_start (world_after session_completed) <> world_after session_completed
  /\ run session_restart_in_flight mounted = Some (world_after session_restart_in_flight)
  /\ timers (world_after session_restart_in_flight) = [1%nat]
  /\ installing (app (world_after session_restart_in_flight)) = false
  /\ start_calls (world_after session_restart_in_flight) = 2%nat
  /\ start_calls (click_start (world_after session_restart_in_flight)) = 3%nat
  /\ installing (app (click_start (world_after session_restart_in_flight))) = true.
Proof.
  split; [exact session_completed_ok|].
  do 6 (split; [vm_compute; reflexivity|]).
  split.
  { intros H. apply (f_equal start_calls) in H. vm_compute in H. discriminate. }
  do 5 (split; [vm_compute; reflexivity|]).
  vm_compute. reflexivity.
Qed.

(** The guard inside [startInstallation]: in a web environment it only
    alerts. *)
Lemma startInstallation_web (w : World) :
  isWebEnvironment (app w) = true ->
  app (startInstallation w) = app w
  /\ calls (startInstallation w) = calls w
  /\ pending (startInstallation w) = pending w
  /\ timers (startInstallation w) = timers w.
Proof. unfold startInstallation. intros ->. auto. Qed.

(** ** Polling *)

(** When the answer [r] to a poll of timer [t] arrives, [r] becomes the
    progress report as a whole.  If [r] has the error flag, timer [t] is
    cleared and the loop of that timer issues no further poll, the in-flight
    flag is cleared and the error shown is the label of an installation
    failure followed by the message of [r].  If [r] has the completion flag,
    timer [t] is cleared and its loop issues no further poll, the in-flight
    flag is cleared, and without the error flag the error shown is left as
    it was.  Otherwise the timer stays armed and the in-flight flag and the
    error are as before.  Other timers are not touched. *)
Theorem poll_answer_observed (w w' : World) (t : nat) (r : InstallProgress) :
  timers_fresh w ->
  step_event (PollOk t r) w = Some w' ->
  installProgress (app w') = r
  /\ (has_error r = true ->
        ~ In t (timers w') /\ loop_stopped t w'
        /\ installing (app w') = false
        /\ error (app w') = Some ("安装失败: " ++ message r))
  /\ (is_complete r = true ->
        ~ In t (timers w') /\ loop_stopped t w'
        /\ installing (app w') = false
        /\ (has_error r = false -> error (app w') = error (app w)))
  /\ (is_complete r = false -> has_error r = false ->
        timers w' = timers w
        /\ installing (app w') = installing (app w)
        /\ error (app w') = error (app w)).
Proof.
  intros [Ht Hp] H. unstep H. subst w'.
  apply settle_In in Esettle. destruct Esettle as [Hin _].
  assert (Hlt : (t < next_timer w)%nat) by auto.
  assert (Hret : forall w0, timers w0 = remove Nat.eq_dec t (timers w) ->
                            next_timer w0 = next_timer w ->
                            ~ In t (timers w0) /\ loop_stopped t w0).
  { intros w0 E1 E2.
    assert (~ In t (timers w0)) by (rewrite E1; apply remove_In).
    split; [assumption|]. apply retired_loop_stopped. split; [assumption|lia]. }
  unfold poll_resolved.
  split; [destruct (is_complete r), (has_error r); reflexivity|].
  split; [|split].
  - intros ->. rewrite orb_true_r.
    match goal with |- ~ In _ (timers ?w1) /\ _ =>
      destruct (Hret w1 eq_refl eq_refl) end.
    repeat split; assumption.
  - intros ->. simpl.
    destruct (has_error r);
      match goal with |- ~ In _ (timers ?w1) /\ _ =>
        destruct (Hret w1 eq_refl eq_refl) end;
      (split; [assumption|]); (split; [assumption|]); (split; [reflexivity|]);
      intros Hf; [discriminate Hf|reflexivity].
  - intros -> ->. simpl. auto.
Qed.

Lemma session_polling_ok :
  run session_polling mounted = Some (world_after session_polling).
Proof. vm_compute. reflexivity. Qed.

Lemma poll_answer_observed_witness :
  timers_fresh (world_after session_polling)
  /\ step_event (PollOk 0 report_failed) (world_after session_polling)
     = Some (world_after session_failed)
  /\ installProgress (app (world_after session_failed)) = report_failed
  /\ installing (app (world_after session_failed)) = false
  /\ error (app (world_after session_failed)) = Some "安装失败: disk full"
  /\ loop_stopped 0 (world_after session_failed).
Proof.
  assert (HF : timers_fresh (world_after session_polling))
    by exact (run_timers_fresh _ _ _ mounted_timers_fresh session_polling_ok).
  assert (HS : step_event (PollOk 0 report_failed) (world_after session_polling)
               = Some (world_after session_failed)) by (vm_compute; reflexivity).
  destruct (poll_answer_observed _ _ _ _ HF HS) as (A & B & _ & _).
  destruct (B eq_refl) as (_ & L & I & E).
  split; [exact HF|]. split; [exact HS|]. split; [exact A|].
  split; [exact I|]. split; [exact E|exact L].
Defined.

(** C3, on the code.  With two poll timers armed (the restart button was
    used while an installation was in flight, and start was accepted again),
    a report with the error flag answering a poll of timer 1 clears timer 1
    only: the in-flight flag is cleared and the failure is shown, but timer 2
    stays armed, and its next tick issues a further progress poll. *)
Theorem failed_report_leaves_second_loop_polling :
  run session_two_loops mounted = Some (world_after session_two_loops)
  /\ timers (world_after session_two_loops) = [2%nat; 1%nat]
  /\ installing (app (world_after session_two_loops)) = true
  /\ step_event (PollOk 1 report_failed) (world_after session_two_loops)
     = Some (world_after (session_two_loops ++ [PollOk 1%nat report_failed]))
  /\ installProgress
       (app (world_after (session_two_loops ++ [PollOk 1%nat report_failed])))
     = report_failed
  /\ installing
       (app (world_after (session_two_loops ++ [PollOk 1%nat report_failed])))
     = false
  /\ error (app (world_after (session_two_loops ++ [PollOk 1%nat report_failed])))
     = Some "安装失败: disk full"
  /\ timers (world_after (session_two_loops ++ [PollOk 1%nat report_failed]))
     = [2%nat]
  /\ step_event (Tick 2)
       (world_after (session_two_loops ++ [PollOk 1%nat report_failed]))
     = Some (world_after (session_two_loops ++ [PollOk 1%nat report_failed; Tick 2%nat]))
  /\ poll_calls (world_after (session_two_loops ++ [PollOk 1%nat report_failed]))
     = 2%nat
  /\ poll_calls
       (world_after (session_two_loops ++ [PollOk 1%nat report_failed; Tick 2%nat]))
     = 3%nat.
Proof.
  do 10 (split; [vm_compute; reflexivity|]).
  vm_compute. reflexivity.
Qed.

(** C4, as amended.  When a poll of timer [t] is rejected with the error text
    [err], timer [t] is cleared and its loop issues no further poll, the
    in-flight flag is cleared, the progress report is left as it was, and the
    error shown is the label of a failed progress fetch followed by [err]. *)
Theorem poll_failure_observed (w w' : World) (t : nat) (err : string) :
  timers_fresh w ->
  step_event (PollErr t err) w = Some w' ->
  ~ In t (timers w') /\ loop_stopped t w'
  /\ installing (app w') = false
  /\ error (app w') = Some ("获取安装进度失败: " ++ err)
  /\ installProgress (app w') = installProgress (app w).
Proof.
  intros [Ht Hp] H. unstep H. subst w'.
  apply settle_In in Esettle. destruct Esettle as [Hin _].
  assert (Hlt : (t < next_timer w)%nat) by auto.
  assert (Hn : ~ In t (remove Nat.eq_dec t (timers w))) by apply remove_In.
  split; [exact Hn|]. split; [|repeat split].
  apply retired_loop_stopped. split; simpl; [exact Hn|lia].
Qed.

Lemma session_transport_error_ok :
  run session_transport_error mounted = Some (world_after session_transport_error).
Proof. vm_compute. reflexivity. Qed.

Lemma poll_failure_observed_witness :
  timers_fresh (world_after session_polling)
  /\ step_event (PollErr 0 "connection lost") (world_after session_polling)
     = Some (world_after session_transport_error)
  /\ (~ In 0%nat (timers (world_after session_transport_error))
      /\ loop_stopped 0 (world_after session_transport_error)
      /\ installing (app (world_after session_transport_error)) = false
      /\ error (app (world_after session_transport_error))
         = Some ("获取安装进度失败: " ++ "connection lost")
      /\ installProgress (app (world_after session_transport_error))
         = installProgress (app (world_after session_polling))).
Proof.
  assert (HF : timers_fresh (world_after session_polling))
    by exact (run_timers_fresh _ _ _ mounted_timers_fresh session_polling_ok).
  assert (HS : step_event (PollErr 0 "connection lost") (world_after session_polling)
               = Some (world_after session_transport_error))
    by (vm_compute; reflexivity).
  split; [exact HF|]. split; [exact HS|].
  exact (poll_failure_observed _ _ _ _ HF HS).
Defined.

(** C4, counterexample.  Start accepted, first poll rejected with the text
    connection lost: the error shown is not that text but the text behind a
    label; the report still is the initial one, without the error flag. *)
Lemma transport_error_is_labelled :
  run session_transport_error mounted = Some (world_after session_transport_error)
  /\ error (app (world_after session_transport_error))
     = Some "获取安装进度失败: connection lost"
  /\ error (app (world_after session_transport_error)) <> Some "connection lost"
  /\ installProgress (app (world_after session_transport_error)) = idle_progress.
Proof.
  split; [exact session_transport_error_ok|].
  split; [vm_compute; reflexivity|].
  split; [vm_compute; discriminate|vm_compute; reflexivity].
Qed.

(** ** Start failure *)

Lemma start_rejected_effect (w w' : World) (err : string) :
  step_event (StartErr err) w = Some w' ->
  installing (app w') = false
  /\ error (app w') = Some ("启动安装失败: " ++ err)
  /\ timers w' = timers w /\ next_timer w' = next_timer w
  /\ calls w' = calls w
  /\ installProgress (app w') = installProgress (app w)
  /\ systemInfo (app w') = systemInfo (app w)
  /\ isWebEnvironment (app w') = isWebEnvironment (app w)
  /\ installConfig (app w') = installConfig (app w).
Proof. intros H. unstep H. subst w'. repeat split. Qed.

(** C5, as amended.  When start is invoked and the host rejects the start_installation
    call with the message [err]: between the click and the rejection the
    in-flight flag is set but no timer is armed; after the rejection the flag
    is cleared, no timer has been armed and no poll has been issued, the
    progress report is as before, the start button is offered again, and the
    error shown is the label of a failed start followed by [err], unaltered. *)
Theorem start_failure_returns_to_idle (w : World) (err : string) :
  start_clickable (app w) = true ->
  exists w1 w2,
    step_event ClickStart w = Some w1
    /\ step_event (StartErr err) w1 = Some w2
    /\ calls w1 = start_installation (installConfig (app w)) :: calls w
    /\ installing (app w1) = true /\ timers w1 = timers w
    /\ installing (app w2) = false
    /\ timers w2 = timers w /\ next_timer w2 = next_timer w
    /\ poll_calls w2 = poll_calls w
    /\ installProgress (app w2) = installProgress (app w)
    /\ start_clickable (app w2) = true
    /\ error (app w2) = Some ("启动安装失败: " ++ err).
Proof.
  intros Hc.
  assert (Hweb : isWebEnvironment (app w) = false).
  { unfold start_clickable, start_disabled in Hc.
    destruct (isWebEnvironment (app w)); [|reflexivity].
    rewrite !orb_true_r, andb_false_r in Hc. discriminate. }
  assert (H1 : step_event ClickStart w = Some (startInstallation w)).
  { unfold step_event, guard. now rewrite Hc. }
  destruct (step_event (StartErr err) (startInstallation w)) as [w2|] eqn:H2.
  - exists (startInstallation w), w2.
    destruct (start_rejected_effect _ _ _ H2) as (A & B & C & D & E & F & G & I & J).
    unfold startInstallation in *. rewrite Hweb in *. simpl in *.
    repeat split; try assumption.
    + unfold poll_calls. rewrite E. reflexivity.
    + unfold start_clickable, form_rendered, start_disabled in *.
      rewrite A, G, I. rewrite Hweb in *. simpl.
      destruct (installing (app w)); [discriminate|]. simpl in Hc.
      rewrite !orb_false_r in *. exact Hc.
  - exfalso. unfold step_event, answer in H2.
    unfold startInstallation in H2. rewrite Hweb in H2. simpl in H2.
    destruct (settle KStart (push (pending w) KStart)) eqn:E; [discriminate|].
    exact (settle_push _ _ E).
Qed.

Lemma session_ready_ok : run session_ready mounted = Some (world_after session_ready).
Proof. vm_compute. reflexivity. Qed.

Lemma start_failure_returns_to_idle_witness :
  start_clickable (app (world_after session_ready)) = true
  /\ exists w1 w2,
       step_event ClickStart (world_after session_ready) = Some w1
       /\ step_event (StartErr "permission denied") w1 = Some w2
       /\ installing (app w2) = false
       /\ timers w2 = []
       /\ error (app w2) = Some "启动安装失败: permission denied".
Proof.
  split; [reflexivity|].
  destruct (start_failure_returns_to_idle (world_after session_ready)
              "permission denied" eq_refl)
    as (w1 & w2 & A & B & _ & _ & _ & C & D & _ & _ & _ & _ & E).
  exists w1, w2. repeat split; assumption.
Defined.

(** C5, counterexample.  Start is rejected with the message permission
    denied: the controller is back where it was, with no timer and no poll,
    but the error shown is not that message: it is the message behind the
    label of a failed start. *)
Lemma start_error_is_labelled :
  run session_start_rejected mounted = Some (world_after session_start_rejected)
  /\ installing (app (world_after session_start_rejected)) = false
  /\ timers (world_after session_start_rejected) = []
  /\ poll_calls (world_after session_start_rejected) = 0%nat
  /\ error (app (world_after session_start_rejected))
     = Some "启动安装失败: permission denied"
  /\ error (app (world_after session_start_rejected)) <> Some "permission denied".
Proof.
  do 5 (split; [vm_compute; reflexivity|]).
  vm_compute. discriminate.
Qed.

(** ** A whole installation *)

Lemma settle_single (k : Pending) : settle k [k] = Some [].
Proof. simpl. destruct (Pending_eq_dec k k); congruence. Qed.

Lemma remove_single (t : nat) : remove Nat.eq_dec t [t] = [].
Proof. simpl. destruct (Nat.eq_dec t t); congruence. Qed.

Lemma tick_armed (t : nat) (w : World) :
  In t (timers w) -> step_event (Tick t) w = Some (tick t w).
Proof.
  intros H. unfold step_event, guard.
  destruct (in_dec Nat.eq_dec t (timers w)); [reflexivity|contradiction].
Qed.

Lemma run_two (e1 e2 : Event) (w w1 w2 : World) :
  step_event e1 w = Some w1 -> step_event e2 w1 = Some w2 ->
  run [e1; e2] w = Some w2.
Proof. intros H1 H2. simpl. now rewrite H1, H2. Qed.

Lemma no_timer_no_tick (w : World) :
  timers w = [] -> forall t, step_event (Tick t) w = None.
Proof. intros H t. unfold step_event, guard. now rewrite H. Qed.

Lemma clickable_not_web (a : AppState) :
  start_clickable a = true -> isWebEnvironment a = false.
Proof.
  unfold start_clickable, start_disabled. intros H.
  destruct (isWebEnvironment a); [|reflexivity].
  rewrite !orb_true_r, andb_false_r in H. discriminate.
Qed.

(** C6, as amended.  Start is accepted with no timer armed and no call
    outstanding; the host answers each poll before the next tick, the first
    with 40 percent and neither flag, the second with 100 percent and the
    completion flag.  Then both ticks fire with no poll outstanding, exactly
    two polls are issued, the in-flight flag ends cleared with the second
    report as the progress report, and no timer is left armed. *)
Theorem two_polls_when_answers_precede_ticks
    (w : World) (s1 m1 s2 m2 : string) :
  start_clickable (app w) = true ->
  timers w = [] ->
  pending w = [] ->
  exists wa wb wc,
    run [ClickStart; StartOk] w = Some wa
    /\ timers wa = [next_timer w] /\ installing (app wa) = true
    /\ polls_outstanding wa = 0%nat
    /\ run [Tick (next_timer w);
            PollOk (next_timer w) (mkInstallProgress s1 40 m1 false false)] wa
       = Some wb
    /\ timers wb = [next_timer w] /\ installing (app wb) = true
    /\ installProgress (app wb) = mkInstallProgress s1 40 m1 false false
    /\ polls_outstanding wb = 0%nat
    /\ run [Tick (next_timer w);
            PollOk (next_timer w) (mkInstallProgress s2 100 m2 true false)] wb
       = Some wc
    /\ timers wc = [] /\ installing (app wc) = false
    /\ installProgress (app wc) = mkInstallProgress s2 100 m2 true false
    /\ polls_outstanding wc = 0%nat
    /\ poll_calls wc = (2 + poll_calls w)%nat
    /\ (forall t, step_event (Tick t) wc = None).
Proof.
  intros Hc Ht Hp.
  pose proof (clickable_not_web _ Hc) as Hweb.
  destruct w as [a tm nt pd cl al]. simpl in Hc, Ht, Hp, Hweb. subst tm pd.
  cbn [next_timer poll_calls calls].
  eexists; eexists; eexists.
  split.
  { eapply run_two.
    - unfold step_event, guard. cbn [app]. rewrite Hc. reflexivity.
    - unfold startInstallation. cbn [app]. rewrite Hweb.
      unfold step_event, answer, invoke, push, with_app; simpl pending.
      rewrite settle_single. reflexivity. }
  split; [reflexivity|]. split; [reflexivity|]. split; [reflexivity|].
  split.
  { eapply run_two; [apply tick_armed; simpl; auto|].
    unfold step_event, answer, tick, invoke, push; simpl pending.
    rewrite settle_single. reflexivity. }
  split; [reflexivity|]. split; [reflexivity|]. split; [reflexivity|].
  split; [reflexivity|].
  split.
  { eapply run_two; [apply tick_armed; simpl; auto|].
    unfold step_event, answer, tick, invoke, push; simpl pending.
    rewrite settle_single. reflexivity. }
  split; [simpl; apply remove_single|].
  split; [reflexivity|]. split; [reflexivity|]. split; [reflexivity|].
  split; [reflexivity|].
  intros t. apply no_timer_no_tick. simpl. apply remove_single.
Qed.

Lemma two_polls_when_answers_precede_ticks_witness :
  start_clickable (app (world_after session_ready)) = true
  /\ timers (world_after session_ready) = []
  /\ pending (world_after session_ready) = []
  /\ exists wa wb wc,
       run [ClickStart; StartOk] (world_after session_ready) = Some wa
       /\ run [Tick 0%nat; PollOk 0%nat (mkInstallProgress "downloading" 40 "" false false)] wa
          = Some wb
       /\ run [Tick 0%nat; PollOk 0%nat (mkInstallProgress "completed" 100 "" true false)] wb
          = Some wc
       /\ installing (app wc) = false
       /\ poll_calls wc = 2%nat.
Proof.
  split; [reflexivity|]. split; [reflexivity|]. split; [reflexivity|].
  destruct (two_polls_when_answers_precede_ticks (world_after session_ready)
              "downloading" "" "completed" "" eq_refl eq_refl eq_refl)
    as (wa & wb & wc & A & _ & _ & _ & B & _ & _ & _ & _ & C & _ & D & _ & _ & E & _).
  exists wa, wb, wc.
  split; [exact A|]. split; [exact B|]. split; [exact C|].
  split; [exact D|exact E].
Defined.

Lemma session_overlapping_ok :
  run session_overlapping mounted = Some (world_after session_overlapping).
Proof. vm_compute. reflexivity. Qed.

(** C6, counterexample.  Start is accepted, the first poll is answered with
    the 40 percent report and the second with the completed report, but the
    answers take longer than the interval: the timer fires while polls are
    outstanding, so polls overlap and three are issued, and after completion
    the answer to the third is still applied to the progress report. *)
Lemma ticks_do_not_wait_for_answers :
  run session_overlapping mounted = Some (world_after session_overlapping)
  /\ polls_outstanding (world_after (session_running ++ [Tick 0%nat; Tick 0%nat])) = 2%nat
  /\ poll_calls (world_after session_overlapping) = 3%nat
  /\ poll_calls (world_after session_overlapping) <> 2%nat
  /\ installing (app (world_after session_overlapping)) = false
  /\ installProgress (app (world_after session_overlapping)) = report_done
  /\ polls_outstanding (world_after session_overlapping) = 1%nat
  /\ exists w,
       step_event (PollOk 0%nat report_40) (world_after session_overlapping) = Some w
       /\ installProgress (app w) = report_40.
Proof.
  split; [exact session_overlapping_ok|].
  split; [vm_compute; reflexivity|].
  split; [vm_compute; reflexivity|].
  split; [vm_compute; discriminate|].
  split; [vm_compute; reflexivity|].
  split; [vm_compute; reflexivity|].
  split; [vm_compute; reflexivity|].
  eexists. split; vm_compute; reflexivity.
Qed.

(** ** Restart after a failure *)

Lemma restart_clicked_effect (w : World) :
  installing (app (restart_clicked w)) = false
  /\ installProgress (app (restart_clicked w)) = idle_progress
  /\ error (app (restart_clicked w)) = error (app w)
  /\ timers (restart_clicked w) = timers w
  /\ pending (restart_clicked w) = pending w
  /\ calls (restart_clicked w) = calls w.
Proof. repeat split. Qed.

Lemma poll_resolved_app (t : nat) (r : InstallProgress) (w : World) :
  systemInfo (app (poll_resolved t r w)) = systemInfo (app w)
  /\ installConfig (app (poll_resolved t r w)) = installConfig (app w)
  /\ isWebEnvironment (app (poll_resolved t r w)) = isWebEnvironment (app w)
  /\ installProgress (app (poll_resolved t r w)) = r
  /\ (is_complete r || has_error r = true ->
      installing (app (poll_resolved t r w)) = false).
Proof.
  unfold poll_resolved.
  destruct (is_complete r), (has_error r); simpl; repeat split; auto; discriminate.
Qed.

(** Whenever a poll answer stops the installation, the restart button is
    hidden by the same update that sets the error flag. *)
Lemma restart_hidden_when_poll_ends (w w' : World) (t : nat) (r : InstallProgress) :
  step_event (PollOk t r) w = Some w' ->
  is_complete r || has_error r = true ->
  restart_rendered (app w') = false /\ completion_rendered (app w') = false.
Proof.
  intros H Hr. unstep H. subst w'.
  destruct (poll_resolved_app t r (with_pending l w)) as (_ & _ & _ & _ & Hi).
  unfold restart_rendered, completion_rendered. now rewrite (Hi Hr).
Qed.

(** C7, on the code.  After a report with the error flag the in-flight flag
    is cleared, and the restart button is rendered only while that flag is
    set: in the failed state the restart is not offered (the start button
    is).  Once start has been invoked again, with the failed report still in
    place, the restart is offered while the new installation is in flight;
    it clears the flag and restores the initial report but leaves the poll
    timer armed. *)
Theorem restart_not_offered_after_failure :
  run session_failed mounted = Some (world_after session_failed)
  /\ has_error (installProgress (app (world_after session_failed))) = true
  /\ error (app (world_after session_failed)) = Some "安装失败: disk full"
  /\ installing (app (world_after session_failed)) = false
  /\ restart_rendered (app (world_after session_failed)) = false
  /\ step_event ClickRestart (world_after session_failed) = None
  /\ click_restart (world_after session_failed) = world_after session_failed
  /\ start_clickable (app (world_after session_failed)) = true
  /\ run session_restarted mounted = Some (world_after session_restarted)
  /\ installing (app (world_after session_restarted)) = true
  /\ timers (world_after session_restarted) = [1%nat]
  /\ restart_rendered (app (world_after session_restarted)) = true
  /\ installProgress (app (click_restart (world_after session_restarted))) = idle_progress
  /\ installing (app (click_restart (world_after session_restarted))) = false
  /\ timers (click_restart (world_after session_restarted)) = [1%nat].
Proof.
  split; [exact session_failed_ok|].
  do 7 (split; [vm_compute; reflexivity|]).
  do 6 (split; [vm_compute; reflexivity|]).
  vm_compute; reflexivity.
Qed.

(** ** The model type submitted *)

(** C9, on the code.  The configuration starts with the model type base,
    which is none of the three values the select offers; starting without
    touching the select submits it to the host. *)
Theorem default_model_type_not_offered :
  run session_start_untouched mounted = Some (world_after session_start_untouched)
  /\ calls (world_after session_start_untouched)
     = start_installation (mkInstallConfig "/Applications/IndexTTS" "base" false)
       :: calls (world_after session_ready)
  /\ model_type (installConfig initial_state) = "base"
  /\ ~ In "base" offered_model_types.
Proof.
  split; [vm_compute; reflexivity|].
  split; [vm_compute; reflexivity|].
  split; [reflexivity|].
  vm_compute. intros [H|[H|[H|[]]]]; discriminate.
Qed.

Lemma step_model_type_known (e : Event) (w w' : World) :
  model_type_known w -> step_event e w = Some w' -> model_type_known w'.
Proof.
  unfold model_type_known. intros Hk H.
  destruct e; unstep H; subst w'; try exact Hk.
  - unfold startInstallation. destruct (isWebEnvironment (app w)); exact Hk.
  - simpl. destruct o; simpl; auto.
  - match goal with |- context [poll_resolved ?t ?r ?w0] =>
      destruct (poll_resolved_app t r w0) as (_ & Hc & _) end.
    rewrite Hc. exact Hk.
Qed.

Lemma run_model_type_known (es : list Event) :
  forall w w', model_type_known w -> run es w = Some w' -> model_type_known w'.
Proof.
  induction es as [|e es IH]; simpl; intros w w' Hw H.
  - now injection H as <-.
  - destruct (step_event e w) as [w1|] eqn:E; [|discriminate].
    eapply IH; [|exact H]. eapply step_model_type_known; eauto.
Qed.

Lemma change_model_offered (o : ModelOption) (w w' : World) :
  step_event (ChangeModel o) w = Some w' ->
  In (model_type (installConfig (app w'))) offered_model_types.
Proof.
  intros H. unstep H. subst w'. destruct o; simpl; auto.
Qed.

(** ** Start needs a machine profile *)

Lemma start_disabled_iff (a : AppState) :
  start_disabled a = true <->
  systemInfo a = None
  \/ status (systemStatus (systemInfo a)) = "error"
  \/ isWebEnvironment a = true
  \/ installing a = true.
Proof.
  unfold start_disabled. rewrite !orb_true_iff, String.eqb_eq.
  destruct (systemInfo a); intuition congruence.
Qed.

Lemma no_profile_not_clickable (a : AppState) :
  systemInfo a = None -> start_clickable a = false.
Proof.
  intros H. apply start_disabled_not_clickable.
  apply start_disabled_iff. now left.
Qed.

Lemma step_without_profile (e : Event) (w w' : World) :
  systemInfo (app w) = None ->
  is_profile_answer e = false ->
  step_event e w = Some w' ->
  systemInfo (app w') = None /\ start_calls w' = start_calls w.
Proof.
  intros Hs He H.
  destruct e; try discriminate He; unstep H; subst w'; try (split; [exact Hs|reflexivity]).
  - rewrite (no_profile_not_clickable _ Hs) in Eguard. discriminate.
  - match goal with |- context [poll_resolved ?t ?r ?w0] =>
      destruct (poll_resolved_app t r w0) as (Hi & _);
      destruct (poll_resolved_shape t r w0) as (_ & _ & Hc & _) end.
    unfold start_calls. rewrite Hi, Hc. split; [exact Hs|reflexivity].
Qed.

Lemma run_without_profile (es : list Event) :
  forall w w',
    systemInfo (app w) = None ->
    no_profile_answer es = true ->
    run es w = Some w' ->
    systemInfo (app w') = None /\ start_calls w' = start_calls w.
Proof.
  induction es as [|e es IH]; simpl; intros w w' Hs Hn H.
  - injection H as <-. auto.
  - apply andb_true_iff in Hn. destruct Hn as [He Hn].
    apply negb_true_iff in He.
    destruct (step_event e w) as [w1|] eqn:E; [|discriminate].
    destruct (step_without_profile _ _ _ Hs He E) as [Hs1 Hc1].
    destruct (IH _ _ Hs1 Hn H) as [Hs' Hc']. split; [exact Hs'|congruence].
Qed.

(** C10.  In every world reached from the mounted component by events among
    which no get_system_info call was answered successfully, there is no
    machine profile, the status is unknown (not error), and the start button
    is disabled all the same: invoking start does nothing, and no
    start_installation call has been issued. *)
Theorem start_needs_profile (es : list Event) (w : World) :
  run es mounted = Some w ->
  no_profile_answer es = true ->
  systemInfo (app w) = None
  /\ status (systemStatus (systemInfo (app w))) = "unknown"
  /\ start_disabled (app w) = true
  /\ click_start w = w
  /\ step_event ClickStart w = None
  /\ start_calls w = 0%nat.
Proof.
  intros Hrun Hn.
  destruct (run_without_profile es mounted w eq_refl Hn Hrun) as [Hs Hc].
  pose proof (no_profile_not_clickable _ Hs) as Hnc.
  split; [exact Hs|]. split; [now rewrite Hs|].
  split; [apply start_disabled_iff; now left|].
  split; [unfold click_start; now rewrite Hnc|].
  split; [unfold step_event, guard; now rewrite Hnc|].
  exact Hc.
Qed.

Lemma start_needs_profile_witness :
  run session_no_profile mounted = Some (world_after session_no_profile)
  /\ no_profile_answer session_no_profile = true
  /\ isWebEnvironment (app (world_after session_no_profile)) = false
  /\ (systemInfo (app (world_after session_no_profile)) = None
      /\ status (systemStatus (systemInfo (app (world_after session_no_profile))))
         = "unknown"
      /\ start_disabled (app (world_after session_no_profile)) = true
      /\ click_start (world_after session_no_profile) = world_after session_no_profile
      /\ step_event ClickStart (world_after session_no_profile) = None
      /\ start_calls (world_after session_no_profile) = 0%nat).
Proof.
  assert (HR : run session_no_profile mounted = Some (world_after session_no_profile))
    by (vm_compute; reflexivity).
  split; [exact HR|]. split; [reflexivity|]. split; [vm_compute; reflexivity|].
  exact (start_needs_profile session_no_profile _ HR eq_refl).
Defined.

(** * Further properties *)

(** ** Outstanding calls *)

Lemma settle_count (k : Pending) (l p : list Pending) (k' : Pending) :
  settle k l = Some p ->
  count_occ Pending_eq_dec l k'
  = (count_occ Pending_eq_dec p k' + if Pending_eq_dec k k' then 1 else 0)%nat.
Proof.
  revert p. induction l as [|y l IH]; simpl; intros p H; [discriminate|].
  destruct (Pending_eq_dec k y) as [->|Hne].
  - injection H as <-.
    destruct (Pending_eq_dec y k'); lia.
  - destruct (settle k l) as [r|] eqn:E; [|discriminate].
    injection H as <-. simpl. specialize (IH r eq_refl).
    destruct (Pending_eq_dec y k'), (Pending_eq_dec k k'); try congruence; lia.
Qed.

Lemma settle_keeps_other (k k' : Pending) (l p : list Pending) :
  settle k l = Some p -> k' <> k -> In k' l -> In k' p.
Proof.
  intros H Hne Hin.
  apply (count_occ_In Pending_eq_dec). apply (count_occ_In Pending_eq_dec) in Hin.
  rewrite (settle_count _ _ _ k' H) in Hin.
  destruct (Pending_eq_dec k k'); [congruence|lia].
Qed.

Lemma poll_resolved_flags (t : nat) (r : InstallProgress) (w : World) :
  loading (app (poll_resolved t r w)) = loading (app w)
  /\ alerts (poll_resolved t r w) = alerts w
  /\ (installing (app (poll_resolved t r w)) = true ->
      is_complete r || has_error r = false
      /\ installing (app w) = true
      /\ timers (poll_resolved t r w) = timers w).
Proof.
  unfold poll_resolved.
  destruct (is_complete r), (has_error r); simpl; repeat split; auto; discriminate.
Qed.

(** Brings the facts about [poll_resolved] on the goal's world into the
    context. *)
Ltac poll_facts :=
  match goal with
  | |- context [poll_resolved ?t ?r ?w0] =>
      let Hn := fresh "Hnext" in let Hq := fresh "Hpend" in
      let Hc := fresh "Hcalls" in let Hm := fresh "Htimers" in
      let Hs := fresh "Hinfo" in let Hg := fresh "Hconfig" in
      let Hw := fresh "Hweb" in let Hl := fresh "Hload" in
      let Ha := fresh "Halerts" in
      destruct (poll_resolved_shape t r w0) as (Hn & Hq & Hc & Hm);
      destruct (poll_resolved_app t r w0) as (Hs & Hg & Hw & _ & _);
      destruct (poll_resolved_flags t r w0) as (Hl & Ha & _)
  end.

(** ** The environment probe *)

Lemma settle_only (k : Pending) (l p : list Pending) (k0 : Pending) :
  (forall x, In x l -> x = k0) -> settle k l = Some p ->
  k = k0 /\ (forall x, In x p -> x = k0).
Proof.
  intros Hall H. apply settle_In in H. destruct H as [Hin Hsub].
  split; [auto|]. intros x Hx. auto.
Qed.

Lemma step_probe_phase (e : Event) (w w' : World) :
  probe_phase w -> step_event e w = Some w' ->
  match e with
  | ProbeOk => desktop_phase w'
  | ProbeErr => web_phase w'
  | _ => probe_phase w'
  end.
Proof.
  intros (Hp & Hi & Hl & Hs & Hw & Ht & Hsc & Hpc & Hc) H.
  pose proof (no_profile_not_clickable _ Hs) as Hnc.
  destruct e; unfold step_event, answer, guard in H;
    unfold restart_rendered, completion_rendered, recheck_clickable, form_rendered in H;
    rewrite ?Hp, ?Hi, ?Hl, ?Hnc, ?Ht in H; simpl in H; try discriminate H;
    injection H as <-.
  - repeat split; assumption.
  - repeat split; assumption.
  - repeat split; assumption.
  - split; reflexivity.
  - split; [reflexivity|]. split; [intros k []|].
    repeat split; assumption.
Qed.

Lemma step_web_phase (e : Event) (w w' : World) :
  web_phase w -> step_event e w = Some w' ->
  web_phase w' /\ is_probe_answer e = false.
Proof.
  intros (Hw & Hp & Hi & Ht & Hsc & Hpc) H.
  assert (Hnc : start_clickable (app w) = false).
  { apply start_disabled_not_clickable, start_disabled_iff. auto. }
  destruct e; unstep H; subst w';
    try discriminate Hnc;
    try (unfold restart_rendered, completion_rendered in Eguard;
         rewrite Hi in Eguard; discriminate Eguard);
    try (rewrite Ht in Eguard; discriminate Eguard);
    try (destruct (settle_only _ _ _ _ Hp Esettle) as [Hk Hp']; try discriminate Hk);
    (split; [|reflexivity]).
  - (* checkSystemInfo *)
    split; [exact Hw|]. split; [|repeat split; assumption].
    simpl. intros k Hk. apply in_app_or in Hk.
    destruct Hk as [Hk|[Hk|[]]]; auto.
  - repeat split; assumption.
  - repeat split; assumption.
  - repeat split; assumption.
  - repeat split; assumption.
  - repeat split; assumption.
Qed.

Lemma step_desktop_phase (e : Event) (w w' : World) :
  desktop_phase w -> step_event e w = Some w' ->
  desktop_phase w' /\ is_probe_answer e = false.
Proof.
  intros (Hw & Hc) H. unfold desktop_phase, outstanding in *.
  destruct e; unstep H; subst w';
    try (pose proof (settle_count _ _ _ KProbe Esettle) as Hk; simpl in Hk);
    try lia;
    (split; [|reflexivity]).
  all: try (split; simpl; [exact Hw|]; unfold push;
            rewrite ?count_occ_app; simpl; lia).
  - unfold startInstallation. rewrite Hw. split; simpl; [exact Hw|].
    unfold push. rewrite count_occ_app. simpl. lia.
  - poll_facts. rewrite Hweb, Hpend. split; simpl; [exact Hw|lia].
Qed.

Lemma run_web_phase (es : list Event) :
  forall w w', web_phase w -> run es w = Some w' ->
    web_phase w' /\ probe_answers es = 0%nat.
Proof.
  induction es as [|e es IH]; simpl; intros w w' Hw H.
  - injection H as <-. auto.
  - destruct (step_event e w) as [w1|] eqn:E; [|discriminate].
    destruct (step_web_phase _ _ _ Hw E) as [Hw1 He].
    destruct (IH _ _ Hw1 H) as [Hw' Hn]. split; [exact Hw'|].
    unfold probe_answers in *. simpl. now rewrite He.
Qed.

Lemma run_desktop_phase (es : list Event) :
  forall w w', desktop_phase w -> run es w = Some w' ->
    desktop_phase w' /\ probe_answers es = 0%nat.
Proof.
  induction es as [|e es IH]; simpl; intros w w' Hw H.
  - injection H as <-. auto.
  - destruct (step_event e w) as [w1|] eqn:E; [|discriminate].
    destruct (step_desktop_phase _ _ _ Hw E) as [Hw1 He].
    destruct (IH _ _ Hw1 H) as [Hw' Hn]. split; [exact Hw'|].
    unfold probe_answers in *. simpl. now rewrite He.
Qed.

Lemma no_probe_answer_no_failure (es : list Event) :
  probe_answers es = 0%nat -> probe_failed es = false.
Proof.
  unfold probe_answers, probe_failed.
  induction es as [|e es IH]; simpl; [reflexivity|].
  destruct e; simpl; try discriminate; exact IH.
Qed.

Lemma run_probe_phase (es : list Event) :
  forall w w', probe_phase w -> run es w = Some w' ->
    (probe_phase w' /\ probe_answers es = 0%nat /\ probe_failed es = false)
    \/ (web_phase w' /\ probe_answers es = 1%nat /\ probe_failed es = true)
    \/ (desktop_phase w' /\ probe_answers es = 1%nat /\ probe_failed es = false).
Proof.
  induction es as [|e es IH]; simpl; intros w w' Hw H.
  - injection H as <-. left. auto.
  - destruct (step_event e w) as [w1|] eqn:E; [|discriminate].
    pose proof (step_probe_phase _ _ _ Hw E) as Hs.
    unfold probe_answers, probe_failed in *.
    destruct e; simpl in *;
      try (destruct (IH _ _ Hs H) as [?|[?|?]]; [left|right; left|right; right];
           assumption).
    + destruct (run_desktop_phase _ _ _ Hs H) as [Hd Hn].
      right; right. split; [exact Hd|]. unfold probe_answers in Hn.
      split; [now rewrite Hn|]. now apply no_probe_answer_no_failure.
    + destruct (run_web_phase _ _ _ Hs H) as [Hd Hn].
      right; left. split; [exact Hd|]. unfold probe_answers in Hn.
      split; [now rewrite Hn|reflexivity].
Qed.

Lemma mounted_probe_phase : probe_phase mounted.
Proof. repeat split. Qed.

(** The environment probe is answered at most once in a session, and the
    web-environment flag is set exactly when that answer was a rejection.
    Until the answer arrives the component is loading and the probe is the
    only host call issued. *)
Theorem environment_decided_once (es : list Event) (w : World) :
  run es mounted = Some w ->
  (probe_answers es <= 1)%nat
  /\ isWebEnvironment (app w) = probe_failed es
  /\ (probe_answers es = 0%nat ->
      loading (app w) = true /\ calls w = [get_default_install_path]).
Proof.
  intros H.
  destruct (run_probe_phase _ _ _ mounted_probe_phase H)
    as [(Hp & Hn & Hf)|[(Hp & Hn & Hf)|(Hp & Hn & Hf)]]; rewrite Hn, Hf.
  - destruct Hp as (_ & _ & P3 & _ & P5 & _ & _ & _ & P9).
    split; [lia|]. split; [exact P5|]. intros _. split; assumption.
  - destruct Hp as (P1 & _). split; [lia|]. split; [exact P1|]. discriminate.
  - destruct Hp as (P1 & _). split; [lia|]. split; [exact P1|]. discriminate.
Qed.

(** In a web environment nothing is ever installed: whatever the user does
    after the probe was rejected, even re-detecting a machine profile, the
    start button stays disabled, no start_installation and no progress poll
    is issued, no timer is armed, and only profile fetches are outstanding. *)
Theorem web_environment_never_installs (es : list Event) (w : World) :
  run es mounted = Some w ->
  isWebEnvironment (app w) = true ->
  start_calls w = 0%nat /\ poll_calls w = 0%nat
  /\ timers w = [] /\ installing (app w) = false
  /\ step_event ClickStart w = None
  /\ (forall k, In k (pending w) -> k = KSysInfo).
Proof.
  intros H Hweb.
  destruct (run_probe_phase _ _ _ mounted_probe_phase H)
    as [(Hp & _)|[(Hp & _)|(Hp & _)]].
  - destruct Hp as (_ & _ & _ & _ & P5 & _). congruence.
  - destruct Hp as (Hw & Hp & Hi & Ht & Hsc & Hpc).
    repeat split; try assumption.
    unfold step_event, guard.
    rewrite start_disabled_not_clickable; [reflexivity|].
    apply start_disabled_iff. auto.
  - destruct Hp as (P1 & _). congruence.
Qed.

Lemma web_environment_never_installs_witness :
  run session_web mounted = Some (world_after session_web)
  /\ isWebEnvironment (app (world_after session_web)) = true
  /\ systemInfo (app (world_after session_web)) = Some good_info
  /\ (start_calls (world_after session_web) = 0%nat
      /\ poll_calls (world_after session_web) = 0%nat
      /\ timers (world_after session_web) = []
      /\ installing (app (world_after session_web)) = false
      /\ step_event ClickStart (world_after session_web) = None
      /\ (forall k, In k (pending (world_after session_web)) -> k = KSysInfo)).
Proof.
  assert (HR : run session_web mounted = Some (world_after session_web))
    by (vm_compute; reflexivity).
  split; [exact HR|]. split; [vm_compute; reflexivity|].
  split; [vm_compute; reflexivity|].
  exact (web_environment_never_installs session_web _ HR eq_refl).
Defined.

(** ** Profile fetches *)

Lemma step_loading_tracks_fetch (e : Event) (w w' : World) :
  loading_tracks_fetch w -> step_event e w = Some w' -> loading_tracks_fetch w'.
Proof.
  unfold loading_tracks_fetch, outstanding. intros (J0 & J1 & J2) H.
  destruct e; unstep H; subst w';
    try (pose proof (settle_count _ _ _ KProbe Esettle) as Hk1; simpl in Hk1;
         pose proof (settle_count _ _ _ KSysInfo Esettle) as Hk2; simpl in Hk2).
  all: try (unfold startInstallation; destruct (isWebEnvironment (app w))).
  all: try (poll_facts; rewrite Hload, Hpend).
  all: try (unfold recheck_clickable in Eguard; apply negb_true_iff in Eguard;
            specialize (J2 Eguard)).
  all: simpl; unfold push; rewrite ?count_occ_app; simpl.
  all: destruct (loading (app w));
    try specialize (J1 eq_refl); try specialize (J2 eq_refl);
    (split; [lia|]); (split; intros HL; try discriminate HL; lia).
Qed.

Lemma run_loading_tracks_fetch (es : list Event) :
  forall w w', loading_tracks_fetch w -> run es w = Some w' -> loading_tracks_fetch w'.
Proof.
  induction es as [|e es IH]; simpl; intros w w' Hw H.
  - now injection H as <-.
  - destruct (step_event e w) as [w1|] eqn:E; [|discriminate].
    eapply IH; [|exact H]. eapply step_loading_tracks_fetch; eauto.
Qed.

(** At any moment of a session at most one environment probe or profile
    fetch is outstanding, and the loading flag (which disables the re-detect
    button) is set exactly while one is: profile fetches never overlap. *)
Theorem profile_fetches_never_overlap (es : list Event) (w : World) :
  run es mounted = Some w ->
  (outstanding KProbe w + outstanding KSysInfo w <= 1)%nat
  /\ (loading (app w) = true <->
        (outstanding KProbe w + outstanding KSysInfo w = 1)%nat)
  /\ (recheck_clickable (app w) = true <->
        (outstanding KProbe w + outstanding KSysInfo w = 0)%nat).
Proof.
  intros H.
  assert (J : loading_tracks_fetch mounted).
  { unfold loading_tracks_fetch, outstanding. simpl.
    split; [lia|]. split; [reflexivity|discriminate]. }
  destruct (run_loading_tracks_fetch _ _ _ J H) as (J0 & J1 & J2).
  unfold recheck_clickable. rewrite negb_true_iff.
  split; [exact J0|]. split; split; auto.
  - intros Hs. destruct (loading (app w)); [reflexivity|].
    specialize (J2 eq_refl). lia.
  - intros Hs. destruct (loading (app w)); [|reflexivity].
    specialize (J1 eq_refl). lia.
Qed.

Lemma profile_fetches_never_overlap_witness :
  run session_no_profile mounted = Some (world_after session_no_profile)
  /\ (outstanding KProbe (world_after session_no_profile)
      + outstanding KSysInfo (world_after session_no_profile) <= 1)%nat.
Proof.
  assert (HR : run session_no_profile mounted = Some (world_after session_no_profile))
    by (vm_compute; reflexivity).
  split; [exact HR|].
  exact (proj1 (profile_fetches_never_overlap session_no_profile _ HR)).
Defined.

Lemma step_keeps_profile (e : Event) (w w' : World) :
  is_profile_answer e = false ->
  step_event e w = Some w' ->
  systemInfo (app w') = systemInfo (app w).
Proof.
  intros He H.
  destruct e; try discriminate He; unstep H; subst w'; try reflexivity.
  - unfold startInstallation. destruct (isWebEnvironment (app w)); reflexivity.
  - poll_facts. rewrite Hinfo. reflexivity.
Qed.

(** The machine profile changes only when a get_system_info call succeeds:
    over any events without such an answer (failed fetches included) the
    profile, and with it the system status, stays what it was. *)
Theorem profile_kept_without_new_answer (es : list Event) :
  forall w w',
    run es w = Some w' ->
    no_profile_answer es = true ->
    systemInfo (app w') = systemInfo (app w)
    /\ systemStatus (systemInfo (app w')) = systemStatus (systemInfo (app w)).
Proof.
  induction es as [|e es IH]; simpl; intros w w' H Hn.
  - injection H as <-. auto.
  - apply andb_true_iff in Hn. destruct Hn as [He Hn].
    apply negb_true_iff in He.
    destruct (step_event e w) as [w1|] eqn:E; [|discriminate].
    destruct (IH _ _ H Hn) as [Hs _].
    rewrite Hs, (step_keeps_profile _ _ _ He E). auto.
Qed.

Lemma profile_kept_without_new_answer_witness :
  run session_redetect_fails (world_after session_ready)
  = Some (world_after (session_ready ++ session_redetect_fails))
  /\ no_profile_answer session_redetect_fails = true
  /\ systemInfo (app (world_after (session_ready ++ session_redetect_fails)))
     = Some good_info
  /\ error (app (world_after (session_ready ++ session_redetect_fails)))
     = Some "系统检测失败: timeout".
Proof.
  assert (HR : run session_redetect_fails (world_after session_ready)
               = Some (world_after (session_ready ++ session_redetect_fails)))
    by (vm_compute; reflexivity).
  split; [exact HR|]. split; [reflexivity|].
  split; [|vm_compute; reflexivity].
  rewrite (proj1 (profile_kept_without_new_answer _ _ _ HR eq_refl)).
  vm_compute. reflexivity.
Defined.

(** ** The start button *)

Lemma status_error_iff (info : SystemInfo) :
  (status (getSystemStatus (Some info)) =? "error") = true
  <-> (3 <= failing_checks info)%nat.
Proof.
  unfold getSystemStatus. rewrite issues_length.
  destruct (failing_checks info) as [|[|[|n]]]; simpl; split;
    intros H; try discriminate; try lia; reflexivity.
Qed.

(** The start button can be clicked exactly when no installation is in
    flight, the environment is the desktop one, and a machine profile is
    loaded on which at most two of the four checks fail (a warning does not
    block the installation, an error does). *)
Theorem start_clickable_iff (a : AppState) :
  start_clickable a = true <->
  installing a = false /\ isWebEnvironment a = false
  /\ exists info, systemInfo a = Some info /\ (failing_checks info <= 2)%nat.
Proof.
  unfold start_clickable, form_rendered, start_disabled. split.
  - intros H.
    destruct (installing a); [discriminate H|].
    destruct (isWebEnvironment a);
      [rewrite !orb_true_r in H; discriminate H|].
    destruct (systemInfo a) as [info|]; [|discriminate H].
    cbn [systemStatus orb andb negb] in H. rewrite !orb_false_r in H.
    apply negb_true_iff in H.
    repeat split. exists info. split; [reflexivity|].
    destruct (le_lt_dec (failing_checks info) 2) as [|Hgt]; [assumption|].
    assert (Ht : (status (getSystemStatus (Some info)) =? "error") = true)
      by (apply status_error_iff; lia).
    congruence.
  - intros (Hi & Hw & info & Hs & Hle). rewrite Hi, Hw, Hs.
    cbn [systemStatus orb andb negb]. rewrite !orb_false_r. apply negb_true_iff.
    destruct (status (getSystemStatus (Some info)) =? "error") eqn:E; [|reflexivity].
    apply status_error_iff in E. lia.
Qed.

(** Every click on start that is accepted takes the desktop branch of
    [startInstallation]: the in-flight flag is set, the error is cleared,
    exactly one start_installation call carrying the current configuration
    is issued, no timer is armed yet and no alert is raised (the guard on the
    web environment inside the handler never fires from the button). *)
Theorem accepted_start_click (w w' : World) :
  step_event ClickStart w = Some w' ->
  isWebEnvironment (app w) = false
  /\ app w' = setError None (setInstalling true (app w))
  /\ calls w' = start_installation (installConfig (app w)) :: calls w
  /\ pending w' = (pending w ++ [KStart])%list
  /\ timers w' = timers w /\ alerts w' = alerts w.
Proof.
  intros H. unstep H. subst w'.
  pose proof (clickable_not_web _ Eguard) as Hweb.
  unfold startInstallation. rewrite Hweb. repeat split.
Qed.

Lemma accepted_start_click_witness :
  step_event ClickStart (world_after session_ready)
  = Some (world_after session_start_untouched)
  /\ alerts (world_after session_start_untouched) = []
  /\ installing (app (world_after session_start_untouched)) = true.
Proof.
  assert (HS : step_event ClickStart (world_after session_ready)
               = Some (world_after session_start_untouched))
    by (vm_compute; reflexivity).
  destruct (accepted_start_click _ _ HS) as (_ & A & _ & _ & _ & B).
  split; [exact HS|]. split; [rewrite B; reflexivity|].
  rewrite A. reflexivity.
Defined.

(** ** Timers and polls *)

Lemma step_no_timer (e : Event) (w w' : World) :
  timers w = [] -> is_start_accepted e = false ->
  step_event e w = Some w' ->
  timers w' = [] /\ poll_calls w' = poll_calls w.
Proof.
  intros Ht He H.
  pose proof (poll_only_on_tick _ _ _ H) as Hp.
  destruct e; try discriminate He; unstep H; subst w'; rewrite Hp;
    try (split; [exact Ht|reflexivity]).
  - unfold startInstallation. destruct (isWebEnvironment (app w));
      (split; [exact Ht|reflexivity]).
  - rewrite Ht in Eguard. discriminate.
  - poll_facts. split; [|reflexivity].
    destruct Htimers as [E|E]; rewrite E; simpl; rewrite Ht; reflexivity.
  - simpl. rewrite Ht. split; reflexivity.
Qed.

(** Without an accepted start there is no polling: from a world with no
    timer armed, over any events among which no start_installation call is
    accepted, no timer gets armed and no progress poll is issued. *)
Theorem no_poll_without_accepted_start (es : list Event) :
  forall w w',
    timers w = [] ->
    forallb (fun e => negb (is_start_accepted e)) es = true ->
    run es w = Some w' ->
    timers w' = [] /\ poll_calls w' = poll_calls w.
Proof.
  induction es as [|e es IH]; simpl; intros w w' Ht Hn H.
  - injection H as <-. auto.
  - apply andb_true_iff in Hn. destruct Hn as [He Hn].
    apply negb_true_iff in He.
    destruct (step_event e w) as [w1|] eqn:E; [|discriminate].
    destruct (step_no_timer _ _ _ Ht He E) as [Ht1 Hp1].
    destruct (IH _ _ Ht1 Hn H) as [Ht' Hp']. split; [exact Ht'|congruence].
Qed.

Lemma no_poll_without_accepted_start_witness :
  timers mounted = []
  /\ forallb (fun e => negb (is_start_accepted e)) session_start_rejected_twice = true
  /\ run session_start_rejected_twice mounted
     = Some (world_after session_start_rejected_twice)
  /\ timers (world_after session_start_rejected_twice) = []
  /\ poll_calls (world_after session_start_rejected_twice) = 0%nat.
Proof.
  assert (HR : run session_start_rejected_twice mounted
               = Some (world_after session_start_rejected_twice))
    by (vm_compute; reflexivity).
  destruct (no_poll_without_accepted_start session_start_rejected_twice mounted _
              eq_refl eq_refl HR) as [A B].
  split; [reflexivity|]. split; [reflexivity|]. split; [exact HR|].
  split; [exact A|exact B].
Defined.

(** Each run of a timer callback issues exactly one progress poll and
    nothing else issues one: over any events, the number of polls issued
    grows by the number of ticks. *)
Theorem polls_count_ticks (es : list Event) :
  forall w w',
    run es w = Some w' -> poll_calls w' = (poll_calls w + ticks es)%nat.
Proof.
  unfold ticks. induction es as [|e es IH]; simpl; intros w w' H.
  - injection H as <-. lia.
  - destruct (step_event e w) as [w1|] eqn:E; [|discriminate].
    rewrite (IH _ _ H), (poll_only_on_tick _ _ _ E).
    destruct e; simpl; lia.
Qed.

Lemma polls_count_ticks_witness :
  run session_overlapping mounted = Some (world_after session_overlapping)
  /\ poll_calls (world_after session_overlapping)
     = (poll_calls mounted + ticks session_overlapping)%nat.
Proof.
  assert (HR : run session_overlapping mounted = Some (world_after session_overlapping))
    by (vm_compute; reflexivity).
  split; [exact HR|]. exact (polls_count_ticks _ _ _ HR).
Defined.

(** An armed timer is cleared only by an answer to one of its own polls: a
    report with the completion or error flag, or a rejection.  Nothing else
    (restart, a rejected start, answers to polls of other timers) disarms
    it. *)
Theorem timer_cleared_only_by_own_poll (e : Event) (w w' : World) (t : nat) :
  step_event e w = Some w' ->
  In t (timers w) -> ~ In t (timers w') ->
  (exists r, e = PollOk t r /\ is_complete r || has_error r = true)
  \/ (exists err, e = PollErr t err).
Proof.
  intros H Hin Hout.
  destruct e; unstep H; subst w'; try (exfalso; apply Hout; exact Hin).
  - exfalso. apply Hout. unfold startInstallation.
    destruct (isWebEnvironment (app w)); exact Hin.
  - exfalso. apply Hout. simpl. now right.
  - destruct (Nat.eq_dec t0 t) as [->|Hne].
    + left. exists progress0. split; [reflexivity|].
      destruct (is_complete progress0 || has_error progress0) eqn:Ef; [reflexivity|].
      exfalso. apply Hout. unfold poll_resolved. rewrite Ef. exact Hin.
    + exfalso. apply Hout. poll_facts.
      destruct Htimers as [E|E]; rewrite E; simpl; [exact Hin|].
      apply in_in_remove; auto.
  - destruct (Nat.eq_dec t0 t) as [->|Hne].
    + right. exists err. reflexivity.
    + exfalso. apply Hout. simpl. apply in_in_remove; auto.
Qed.

Lemma timer_cleared_only_by_own_poll_witness :
  step_event (PollErr 0 "connection lost") (world_after session_polling)
  = Some (world_after session_transport_error)
  /\ In 0%nat (timers (world_after session_polling))
  /\ ~ In 0%nat (timers (world_after session_transport_error))
  /\ ((exists r, PollErr 0 "connection lost" = PollOk 0 r
                 /\ is_complete r || has_error r = true)
      \/ (exists err, PollErr 0 "connection lost" = PollErr 0 err)).
Proof.
  assert (HS : step_event (PollErr 0 "connection lost") (world_after session_polling)
               = Some (world_after session_transport_error))
    by (vm_compute; reflexivity).
  assert (HI : In 0%nat (timers (world_after session_polling)))
    by (vm_compute; auto).
  assert (HO : ~ In 0%nat (timers (world_after session_transport_error)))
    by (vm_compute; auto).
  split; [exact HS|]. split; [exact HI|]. split; [exact HO|].
  exact (timer_cleared_only_by_own_poll _ _ _ 0%nat HS HI HO).
Defined.

Lemma step_installing_backed (e : Event) (w w' : World) :
  installing_backed w -> step_event e w = Some w' -> installing_backed w'.
Proof.
  unfold installing_backed. intros J H.
  destruct e; unstep H; subst w'; simpl;
    try (intros Hi; discriminate Hi);
    try (intros Hi; destruct (J Hi) as [Hk|Hk]; [left|right; exact Hk];
         first [ exact Hk
               | apply in_or_app; left; exact Hk
               | eapply settle_keeps_other; [exact Esettle|discriminate|exact Hk]
               | unfold push; apply in_or_app; left; apply in_or_app; left;
                 eapply settle_keeps_other; [exact Esettle|discriminate|exact Hk] ]).
  - unfold startInstallation. destruct (isWebEnvironment (app w)); simpl.
    + exact J.
    + intros _. left. apply in_or_app. right. now left.
  - intros _. right. discriminate.
  - destruct (poll_resolved_flags t progress0 (with_pending l w)) as (_ & _ & Hf).
    poll_facts. intros Hi. destruct (Hf Hi) as (_ & Hi0 & Ht).
    rewrite Hpend, Ht. simpl in *.
    destruct (J Hi0) as [Hk|Hk]; [left|right; exact Hk].
    eapply settle_keeps_other; [exact Esettle|discriminate|exact Hk].
Qed.

(** While the in-flight flag is set, a start answer is outstanding or a poll
    timer is armed: the component never shows an installation in progress
    with nothing left that could end it. *)
Theorem installing_never_orphaned (es : list Event) (w : World) :
  run es mounted = Some w ->
  installing (app w) = true ->
  In KStart (pending w) \/ timers w <> [].
Proof.
  assert (G : forall es w0 w, installing_backed w0 -> run es w0 = Some w ->
                              installing_backed w).
  { clear. induction es as [|e es' IH]; simpl; intros w0 w J H.
    - now injection H as <-.
    - destruct (step_event e w0) as [w1|] eqn:E; [|discriminate].
      eapply IH; [|exact H]. eapply step_installing_backed; eauto. }
  intros H. apply (G es mounted w); [|exact H].
  intros Hi. discriminate Hi.
Qed.

Lemma installing_never_orphaned_witness :
  run session_polling mounted = Some (world_after session_polling)
  /\ installing (app (world_after session_polling)) = true
  /\ (In KStart (pending (world_after session_polling))
      \/ timers (world_after session_polling) <> []).
Proof.
  assert (HR : run session_polling mounted = Some (world_after session_polling))
    by (vm_compute; reflexivity).
  split; [exact HR|]. split; [reflexivity|].
  exact (installing_never_orphaned _ _ HR eq_refl).
Defined.

(** ** The configuration *)

(** While the in-flight flag is set the form is not rendered, so no user
    input reaches the configuration; the only event that still changes it
    is a default-path answer arriving late. *)
Theorem config_frozen_while_installing (e : Event) (w w' : World) :
  step_event e w = Some w' ->
  installing (app w) = true ->
  is_default_path e = false ->
  installConfig (app w') = installConfig (app w).
Proof.
  intros H Hi He.
  destruct e; try discriminate He; unstep H; subst w'; try reflexivity;
    try (unfold form_rendered in Eguard; rewrite Hi in Eguard; discriminate Eguard).
  - unfold startInstallation. destruct (isWebEnvironment (app w)); reflexivity.
  - poll_facts. rewrite Hconfig. reflexivity.
Qed.

Lemma config_frozen_while_installing_witness :
  step_event (Tick 0) (world_after session_running) = Some (world_after session_polling)
  /\ installing (app (world_after session_running)) = true
  /\ installConfig (app (world_after session_polling))
     = installConfig (app (world_after session_running)).
Proof.
  assert (HS : step_event (Tick 0) (world_after session_running)
               = Some (world_after session_polling)) by (vm_compute; reflexivity).
  split; [exact HS|]. split; [reflexivity|].
  exact (config_frozen_while_installing _ _ _ HS eq_refl eq_refl).
Defined.

(** The default-path answer does reach an installation in flight: started
    with the fallback path, the configuration then holds another path than
    the one submitted. *)
Example late_default_path_changes_config :
  exists w,
    run [ProbeOk; SysInfoOk good_info; ClickStart; StartOk;
         DefaultPathOk "/Applications/IndexTTS"] mounted = Some w
    /\ In (start_installation (mkInstallConfig "/Users/Shared/IndexTTS" "base" false))
          (calls w)
    /\ installing (app w) = true
    /\ install_path (installConfig (app w)) = "/Applications/IndexTTS".
Proof.
  eexists. split; [vm_compute; reflexivity|].
  split; [vm_compute; auto|]. split; vm_compute; reflexivity.
Qed.

(** In every state a session reaches, the model type is the initial value
    base or one of the three values of the select; the path and the GPU
    choice are free. *)
Theorem model_type_reachable (es : list Event) (w : World) :
  run es mounted = Some w ->
  In (model_type (installConfig (app w))) ["base"; "standard"; "large"; "small"].
Proof.
  intros H.
  apply (run_model_type_known es mounted w); [|exact H].
  unfold model_type_known. simpl. auto.
Qed.

Lemma model_type_reachable_witness :
  run session_web mounted = Some (world_after session_web)
  /\ model_type (installConfig (app (world_after session_web))) = "large"
  /\ In (model_type (installConfig (app (world_after session_web))))
        ["base"; "standard"; "large"; "small"].
Proof.
  assert (HR : run session_web mounted = Some (world_after session_web))
    by (vm_compute; reflexivity).
  split; [exact HR|]. split; [vm_compute; reflexivity|].
  exact (model_type_reachable _ _ HR).
Defined.

(** ** Launching and opening the directory *)

(** The launch and open-directory buttons and the answers to their calls
    change nothing in the component state and arm or clear no timer; a click
    issues one call carrying the current install path. *)
Theorem launch_and_open_leave_state (e : Event) (w w' : World) :
  step_event e w = Some w' ->
  is_launch_or_open e = true ->
  app w' = app w /\ timers w' = timers w
  /\ (e = ClickLaunch ->
      calls w' = launch_indextts (install_path (installConfig (app w))) :: calls w)
  /\ (e = ClickOpen ->
      calls w' = open_install_directory (install_path (installConfig (app w))) :: calls w)
  /\ (forall err, e = LaunchErr err -> alerts w' = ("启动失败: " ++ err) :: alerts w)
  /\ (forall err, e = OpenErr err -> alerts w' = ("打开目录失败: " ++ err) :: alerts w).
Proof.
  intros H He.
  destruct e; try discriminate He; unstep H; subst w';
    (split; [reflexivity|]); (split; [reflexivity|]);
    repeat split; intros; try discriminate; try reflexivity.
  - match goal with E : LaunchErr _ = LaunchErr _ |- _ => injection E as <- end.
    reflexivity.
  - match goal with E : OpenErr _ = OpenErr _ |- _ => injection E as <- end.
    reflexivity.
Qed.

(** When a poll answer ends the installation, the same update hides the
    panels of the in-flight view: right after a report with the completion
    flag the launch and open-directory buttons cannot be clicked. *)
Theorem launch_not_offered_when_poll_completes
    (w w' : World) (t : nat) (r : InstallProgress) :
  step_event (PollOk t r) w = Some w' ->
  is_complete r = true ->
  completion_rendered (app w') = false
  /\ step_event ClickLaunch w' = None
  /\ step_event ClickOpen w' = None.
Proof.
  intros H Hr.
  assert (Hc : completion_rendered (app w') = false).
  { unstep H. subst w'.
    destruct (poll_resolved_app t r (with_pending l w)) as (_ & _ & _ & _ & Hi).
    unfold completion_rendered. rewrite Hi; [reflexivity|].
    rewrite Hr. reflexivity. }
  split; [exact Hc|]. unfold step_event, guard. rewrite Hc. auto.
Qed.

Lemma launch_not_offered_when_poll_completes_witness :
  step_event (PollOk 0 report_done) (world_after (session_running ++ [Tick 0%nat]))
  = Some (world_after (session_running ++ [Tick 0%nat; PollOk 0%nat report_done]))
  /\ is_complete report_done = true
  /\ step_event ClickLaunch
       (world_after (session_running ++ [Tick 0%nat; PollOk 0%nat report_done])) = None.
Proof.
  assert (HS : step_event (PollOk 0 report_done)
                 (world_after (session_running ++ [Tick 0%nat]))
               = Some (world_after
                         (session_running ++ [Tick 0%nat; PollOk 0%nat report_done])))
    by (vm_compute; reflexivity).
  split; [exact HS|]. split; [reflexivity|].
  exact (proj1 (proj2 (launch_not_offered_when_poll_completes _ _ _ _ HS eq_refl))).
Defined.

Lemma launch_and_open_leave_state_witness :
  step_event ClickLaunch
    (world_after (session_running
                  ++ [Tick 0%nat;
                      PollOk 0%nat (mkInstallProgress "completed" 100 "done" false false)]))
  = Some (world_after session_step_completed)
  /\ is_launch_or_open ClickLaunch = true
  /\ timers (world_after session_step_completed) = [0%nat]
  /\ installing (app (world_after session_step_completed)) = true.
Proof.
  assert (HS : step_event ClickLaunch
                 (world_after (session_running
                    ++ [Tick 0%nat;
                        PollOk 0%nat (mkInstallProgress "completed" 100 "done" false false)]))
               = Some (world_after session_step_completed))
    by (vm_compute; reflexivity).
  destruct (launch_and_open_leave_state _ _ _ HS eq_refl) as (A & B & _).
  split; [exact HS|]. split; [reflexivity|].
  split; [rewrite B; vm_compute; reflexivity|].
  rewrite A. vm_compute. reflexivity.
Defined.

(** ** More on the step display *)

Lemma mapi_from_nth_inv {A B} (f : A -> nat -> B) (l : list A) :
  forall (k i : nat) (y : B),
    nth_error (mapi_from k f l) i = Some y ->
    exists x, nth_error l i = Some x /\ y = f x (k + i)%nat.
Proof.
  induction l as [|a l IH]; intros k i y H.
  - destruct i; discriminate.
  - destruct i as [|i]; simpl in *.
    + injection H as <-. exists a. split; [reflexivity|].
      now rewrite Nat.add_0_r.
    + destruct (IH (S k) i y H) as (x & Hx & ->). exists x.
      split; [exact Hx|]. f_equal. lia.
Qed.

Lemma render_steps_nth (p : InstallProgress) (i : nat) (v : StepView) :
  nth_error (render_steps p) i = Some v ->
  exists s, nth_error install_steps i = Some s /\ v = render_step p s i.
Proof. intros H. exact (mapi_from_nth_inv _ _ 0%nat i v H). Qed.

Lemma threshold_mono (j i : nat) :
  (j <= i)%nat ->
  ((inject_Z (Z.of_nat j) / 5) * 100 <= (inject_Z (Z.of_nat i) / 5) * 100)%Q.
Proof.
  intros H. unfold Qdiv.
  apply Qmult_le_compat_r; [|discriminate].
  apply Qmult_le_compat_r; [|discriminate].
  rewrite <- Zle_Qle. lia.
Qed.

(** The steps shown as completed form a prefix of the five: when step [i] is
    completed, so is every earlier step, whatever the report says. *)
Theorem completed_steps_form_prefix
    (p : InstallProgress) (i j : nat) (vi vj : StepView) :
  nth_error (render_steps p) i = Some vi ->
  nth_error (render_steps p) j = Some vj ->
  (j <= i)%nat ->
  isCompleted vi = true ->
  isCompleted vj = true.
Proof.
  intros Hi Hj Hle Hc.
  destruct (render_steps_nth _ _ _ Hi) as (si & _ & ->).
  destruct (render_steps_nth _ _ _ Hj) as (sj & _ & ->).
  change (Qgtb (progress p) ((inject_Z (Z.of_nat i) / 5) * 100) = true) in Hc.
  change (Qgtb (progress p) ((inject_Z (Z.of_nat j) / 5) * 100) = true).
  apply Qgtb_lt. apply Qgtb_lt in Hc.
  eapply Qle_lt_trans; [apply threshold_mono; exact Hle|exact Hc].
Qed.

Lemma completed_steps_form_prefix_witness :
  exists vi vj,
    nth_error (render_steps report_40) 1 = Some vi
    /\ nth_error (render_steps report_40) 0 = Some vj
    /\ isCompleted vi = true /\ isCompleted vj = true.
Proof.
  eexists. eexists.
  split; [vm_compute; reflexivity|]. split; [vm_compute; reflexivity|].
  split; [vm_compute; reflexivity|].
  eapply (completed_steps_form_prefix report_40 1 0).
  - vm_compute. reflexivity.
  - vm_compute. reflexivity.
  - lia.
  - vm_compute. reflexivity.
Defined.

Lemma install_steps_keys_NoDup : NoDup (map key install_steps).
Proof.
  simpl. repeat constructor; simpl; intros H;
    repeat (destruct H as [H|H]; [discriminate H|]); exact H.
Qed.

(** At most one step is shown as active, and only when the report names one
    of the five step keys: a report in step idle or completed marks none. *)
Theorem active_step_unique
    (p : InstallProgress) (i j : nat) (vi vj : StepView) :
  nth_error (render_steps p) i = Some vi ->
  nth_error (render_steps p) j = Some vj ->
  isActive vi = true ->
  isActive vj = true ->
  i = j /\ In (step p) (map key install_steps).
Proof.
  intros Hi Hj Ai Aj.
  destruct (render_steps_nth _ _ _ Hi) as (si & Hsi & ->).
  destruct (render_steps_nth _ _ _ Hj) as (sj & Hsj & ->).
  change ((step p =? key si) = true) in Ai.
  change ((step p =? key sj) = true) in Aj.
  apply String.eqb_eq in Ai, Aj.
  pose proof (map_nth_error key _ _ Hsi) as Ki.
  pose proof (map_nth_error key _ _ Hsj) as Kj.
  split.
  - apply (proj1 (NoDup_nth_error (map key install_steps)) install_steps_keys_NoDup).
    + apply nth_error_Some. rewrite Ki. discriminate.
    + rewrite Ki, Kj. congruence.
  - rewrite Ai. eapply nth_error_In. exact Ki.
Qed.

Lemma active_step_unique_witness :
  exists v,
    nth_error (render_steps report_40) 1 = Some v
    /\ isActive v = true
    /\ In (step report_40) (map key install_steps).
Proof.
  pose (v := render_step report_40 (mkStepDef "downloading" "下载源码" "📥") 1).
  assert (Hn : nth_error (render_steps report_40) 1 = Some v) by reflexivity.
  assert (Ha : isActive v = true) by reflexivity.
  exists v. split; [exact Hn|]. split; [exact Ha|].
  exact (proj2 (active_step_unique report_40 1 1 v v Hn Hn Ha Ha)).
Defined.

Lemma environment_decided_once_witness :
  run session_web mounted = Some (world_after session_web)
  /\ probe_answers session_web = 1%nat
  /\ isWebEnvironment (app (world_after session_web)) = probe_failed session_web.
Proof.
  assert (HR : run session_web mounted = Some (world_after session_web))
    by (vm_compute; reflexivity).
  split; [exact HR|]. split; [reflexivity|].
  exact (proj1 (proj2 (environment_decided_once _ _ HR))).
Defined.

(** ** The system card and the diagnostics *)

Lemma tool_badge_missing (v : option string) :
  tool_badge v = "✗ 未安装" <-> truthy v = false.
Proof.
  unfold tool_badge. destruct v as [s|]; [|split; reflexivity].
  destruct (truthy (Some s)); split; intros H; try reflexivity; discriminate H.
Qed.

(** The badges of the system card agree with the diagnostics: the Python
    (Git) badge reads not-installed exactly when [getSystemStatus] lists the
    Python (Git) diagnostic, an empty version string included. *)
Theorem tool_badges_agree_with_issues (info : SystemInfo) :
  (In "未检测到Python" (issues info) <-> tool_badge (python_version info) = "✗ 未安装")
  /\ (In "未检测到Git" (issues info) <-> tool_badge (git_version info) = "✗ 未安装").
Proof.
  rewrite !tool_badge_missing, issues_by_check.
  destruct (low_memory info), (low_disk info),
           (truthy (python_version info)), (truthy (git_version info));
    simpl; split; split; intros H; try reflexivity; try discriminate H;
    repeat (destruct H as [H|H]; [discriminate H|]); try contradiction; auto.
Qed.

(** ** The error banner *)

(** An error that is shown disappears only when a profile fetch or an
    installation is started (re-detect click, accepted environment probe,
    start click): no answer, tick, restart or form input clears it. *)
Theorem error_cleared_only_by_new_attempt (e : Event) (w w' : World) (m : string) :
  step_event e w = Some w' ->
  error (app w) = Some m ->
  error (app w') = None ->
  e = ClickStart \/ e = ClickRecheck \/ e = ProbeOk.
Proof.
  intros H Hm Hn.
  destruct e; auto; exfalso; unstep H; subst w'; simpl in Hn; try congruence.
  revert Hn. poll_facts. unfold poll_resolved.
  destruct (is_complete progress0), (has_error progress0); simpl; congruence.
Qed.

Lemma error_cleared_only_by_new_attempt_witness :
  step_event ClickStart (world_after (session_ready ++ [ClickStart; StartErr "permission denied"]))
  = Some (world_after (session_ready
                       ++ [ClickStart; StartErr "permission denied"; ClickStart]))
  /\ error (app (world_after (session_ready ++ [ClickStart; StartErr "permission denied"])))
     = Some "启动安装失败: permission denied"
  /\ error (app (world_after (session_ready
                              ++ [ClickStart; StartErr "permission denied"; ClickStart])))
     = None
  /\ (ClickStart = ClickStart \/ ClickStart = ClickRecheck \/ ClickStart = ProbeOk).
Proof.
  assert (HS : step_event ClickStart
                 (world_after (session_ready ++ [ClickStart; StartErr "permission denied"]))
               = Some (world_after (session_ready
                         ++ [ClickStart; StartErr "permission denied"; ClickStart])))
    by (vm_compute; reflexivity).
  assert (HM : error (app (world_after
                 (session_ready ++ [ClickStart; StartErr "permission denied"])))
               = Some "启动安装失败: permission denied") by (vm_compute; reflexivity).
  assert (HN : error (app (world_after (session_ready
                 ++ [ClickStart; StartErr "permission denied"; ClickStart]))) = None)
    by (vm_compute; reflexivity).
  split; [exact HS|]. split; [exact HM|]. split; [exact HN|].
  exact (error_cleared_only_by_new_attempt _ _ _ _ HS HM HN).
Defined.
